(** * IMU analysis: a shallow embedding of [imu_analysis.py]

    The script reads a JSON array of sensor records, keeps the records that
    carry the three sub-objects [accelerometer], [gyroscope] and
    [orientation], turns them into numpy arrays, computes noise and bias of
    the two vector channels, prints a report and plots pitch and roll.

    Modelling decisions.
    - Python values that [json.load] can produce are the type [pyval];
      a JSON object is a finite map from strings to values.
    - [json.load] gives a Python int for an integer literal and a float
      otherwise: [PInt] and [PFloat]. A float is a finite real number:
      rounding of float64 is abstracted, so every statement about a
      statistic is a statement in exact arithmetic; infinities and NaN
      are not values of the model.
    - numpy gives an array built from integers alone an integer dtype, and
      an array with at least one float the dtype float64. An integer array
      has its length and its elements, and refuses the in-place addition
      of a float; the integer arithmetic of numpy (width, wrap-around) is
      not modelled.
    - Python exceptions are the constructor [Raise] of [outcome].
    - numpy arrays live in a store ([heap]) and are named by locations, so
      that [copy] and the in-place [+=] can be told apart from aliasing.
    - [print] and the [matplotlib] calls are logged in the [world].
    - What numpy does on arrays the script cannot build from records with
      numeric fields (object and string arrays, ragged rows, broadcasting
      of two non-scalar arrays), whether [savefig] finds the directory of
      a path that has one, and what [matplotlib] makes of a dollar sign in
      a title, is outside the model: there the model stops with the marker
      [Unmodelled], and nothing is proved about it. The current directory
      is taken to be writable. *)

From Stdlib Require Import Reals Lra Lia.
From Stdlib Require Import Permutation Ascii.
From stdpp Require Import base option list gmap strings.

Local Open Scope R_scope.
Local Open Scope string_scope.

(** ** Python values and exceptions *)

#[warnings="-register-all"]
Inductive pyval : Type :=
| PNone
| PBool (b : bool)
| PInt (z : Z)
| PFloat (r : R)
| PStr (s : string)
| PList (l : list pyval)
| PDict (m : gmap string pyval).

Inductive exn : Type :=
| KeyError (key : string)
| TypeError
| IndexError
| AxisError
| ValueError
| UFuncTypeError
| OverflowError
| Unmodelled.

Inductive outcome (A : Type) : Type :=
| Ok (a : A)
| Raise (e : exn).
Arguments Ok {A} a.
Arguments Raise {A} e.

Definition obind {A B} (m : outcome A) (k : A -> outcome B) : outcome B :=
  match m with
  | Ok a => k a
  | Raise e => Raise e
  end.

Notation "x <~ m ; k" := (obind m (fun x => k))
  (at level 100, m at next level, right associativity).

(** ** The operators of Python used by the loop *)

(** [needle in hay] on two strings: the substring test. *)
Fixpoint str_contains (needle hay : string) : bool :=
  String.prefix needle hay ||
  match hay with
  | EmptyString => false
  | String _ rest => str_contains needle rest
  end.

(** [key in entry] for a string [key]: key membership on a dict, element
    membership on a list (a string equals only a string), substring on a
    string, [TypeError] on a value that is not iterable. *)
Definition py_in (key : string) (entry : pyval) : outcome bool :=
  match entry with
  | PDict m => Ok (bool_decide (is_Some (m !! key)))
  | PList l =>
      Ok (existsb (fun v => match v with
                            | PStr s => String.eqb key s
                            | _ => false
                            end) l)
  | PStr s => Ok (str_contains key s)
  | PNone | PBool _ | PInt _ | PFloat _ => Raise TypeError
  end.

(** [v[key]] for a string [key]: [KeyError] on a dict without the key,
    [TypeError] on everything that is not a dict. *)
Definition py_getitem (v : pyval) (key : string) : outcome pyval :=
  match v with
  | PDict m =>
      match m !! key with
      | Some x => Ok x
      | None => Raise (KeyError key)
      end
  | _ => Raise TypeError
  end.

(** [entry[k1][k2]] *)
Definition py_getitem2 (entry : pyval) (k1 k2 : string) : outcome pyval :=
  sub <~ py_getitem entry k1; py_getitem sub k2.

(** ** Lines 16-38: the filtering pass *)

(** The five lists the loop appends to. *)
Record extracted : Type := mk_extracted {
  accel_data : list (list pyval);
  gyro_data : list (list pyval);
  timestamps : list pyval;
  pitch_values : list pyval;
  roll_values : list pyval
}.

Definition no_data : extracted := mk_extracted [] [] [] [] [].

(** Line 23: the guard, with the short circuit of [and]. *)
Definition has_required_keys (entry : pyval) : outcome bool :=
  a <~ py_in "accelerometer" entry;
  if a then
    g <~ py_in "gyroscope" entry;
    if g then py_in "orientation" entry else Ok false
  else Ok false.

(** What one record contributes to the five lists. *)
Record fields : Type := mk_fields {
  f_accel : list pyval;
  f_gyro : list pyval;
  f_timestamp : pyval;
  f_pitch : pyval;
  f_roll : pyval
}.

(** Lines 24-38: the nine subscripts under the guard, in the order of
    evaluation of the source. *)
Definition entry_fields (entry : pyval) : outcome fields :=
  ax <~ py_getitem2 entry "accelerometer" "x";
  ay <~ py_getitem2 entry "accelerometer" "y";
  az <~ py_getitem2 entry "accelerometer" "z";
  gx <~ py_getitem2 entry "gyroscope" "x";
  gy <~ py_getitem2 entry "gyroscope" "y";
  gz <~ py_getitem2 entry "gyroscope" "z";
  t <~ py_getitem entry "timestamp";
  p <~ py_getitem2 entry "orientation" "pitch";
  r <~ py_getitem2 entry "orientation" "roll";
  Ok (mk_fields [ax; ay; az] [gx; gy; gz] t p r).

(** Lines 24-38: the five [append]s. *)
Definition push (acc : extracted) (f : fields) : extracted :=
  mk_extracted (accel_data acc ++ [f_accel f])
               (gyro_data acc ++ [f_gyro f])
               (timestamps acc ++ [f_timestamp f])
               (pitch_values acc ++ [f_pitch f])
               (roll_values acc ++ [f_roll f]).

(** Lines 24-38. An exception leaves the function, so that the lists as
    they were when it was raised are never seen: reading first and
    appending afterwards is the same. *)
Definition append_entry (acc : extracted) (entry : pyval) : outcome extracted :=
  f <~ entry_fields entry; Ok (push acc f).

(** One iteration of the loop of line 22. *)
Definition loop_body (acc : extracted) (entry : pyval) : outcome extracted :=
  c <~ has_required_keys entry;
  if c then append_entry acc entry else Ok acc.

(** The loop of line 22 over the parsed array, from the lists built so far. *)
Fixpoint extract_from (acc : extracted) (data : list pyval) : outcome extracted :=
  match data with
  | [] => Ok acc
  | entry :: rest => acc' <~ loop_body acc entry; extract_from acc' rest
  end.

Definition extract (data : list pyval) : outcome extracted :=
  extract_from no_data data.

(** ** numpy arrays (values) *)

(** A 0-d scalar, a 1-d array, or a 2-d array given by its rows, of dtype
    float64 ([Arr0], [Arr1], [Arr2]) or of an integer dtype ([IArr0],
    [IArr1], [IArr2]). The script builds a 2-d array only from a non-empty
    list of rows; from the empty list it gets the 1-d float array
    [Arr1 []]. *)
Inductive ndarray : Type :=
| Arr0 (x : R)
| Arr1 (xs : list R)
| Arr2 (rows : list (list R))
| IArr0 (z : Z)
| IArr1 (zs : list Z)
| IArr2 (zrows : list (list Z)).

(** A Python number as [np.array] reads it. *)
Inductive number : Type :=
| NInt (z : Z)
| NFloat (r : R).

Definition as_number (v : pyval) : option number :=
  match v with
  | PInt z => Some (NInt z)
  | PFloat r => Some (NFloat r)
  | _ => None
  end.

Definition as_int (n : number) : option Z :=
  match n with
  | NInt z => Some z
  | NFloat _ => None
  end.

Definition to_float (n : number) : R :=
  match n with
  | NInt z => IZR z
  | NFloat r => r
  end.

(** An integer that a 64-bit integer array holds; what [np.array] makes of
    a larger one is not modelled. *)
Definition int64 (z : Z) : bool := ((- 2 ^ 63 <=? z) && (z <? 2 ^ 63))%Z.

Definition fits (n : number) : bool :=
  match n with
  | NInt z => int64 z
  | NFloat _ => true
  end.

(** [np.array(l)] on a flat Python list: an integer array when the list
    is not empty and holds integers only, a float array otherwise. *)
Definition np_array1 (l : list pyval) : outcome ndarray :=
  match mapM as_number l with
  | None => Raise Unmodelled
  | Some ns =>
      if forallb fits ns
      then match ns, mapM as_int ns with
           | _ :: _, Some zs => Ok (IArr1 zs)
           | _, _ => Ok (Arr1 (map to_float ns))
           end
      else Raise Unmodelled
  end.

(** [np.array(l)] on a Python list of lists; the empty list gives the 1-d
    float array of shape (0,). *)
Definition np_array2 (l : list (list pyval)) : outcome ndarray :=
  match l with
  | [] => Ok (Arr1 [])
  | first :: _ =>
      match mapM (mapM as_number) l with
      | None => Raise Unmodelled
      | Some rows =>
          if forallb (fun r => Nat.eqb (length r) (length first)) rows
             && forallb (forallb fits) rows
          then match concat rows, mapM (mapM as_int) rows with
               | _ :: _, Some zrows => Ok (IArr2 zrows)
               | _, _ => Ok (Arr2 (map (map to_float) rows))
               end
          else Raise Unmodelled
      end
  end.

Definition Rsum (xs : list R) : R := foldr Rplus 0 xs.

Definition Rmean (xs : list R) : R := Rsum xs / INR (length xs).

(** [a.astype(float)]: the array with its elements as floats. *)
Definition np_float (a : ndarray) : ndarray :=
  match a with
  | IArr0 z => Arr0 (IZR z)
  | IArr1 zs => Arr1 (map IZR zs)
  | IArr2 zrows => Arr2 (map (map IZR) zrows)
  | _ => a
  end.

(** The elements of the array, as floats. *)
Definition np_flat (a : ndarray) : list R :=
  match np_float a with
  | Arr0 x => [x]
  | Arr1 xs => xs
  | Arr2 rows => concat rows
  | _ => []
  end.

(** A function on floats applied to every element; the result is a float
    array. *)
Definition np_map (f : R -> R) (a : ndarray) : ndarray :=
  match np_float a with
  | Arr0 x => Arr0 (f x)
  | Arr1 xs => Arr1 (map f xs)
  | Arr2 rows => Arr2 (map (map f) rows)
  | other => other
  end.

#[global] Instance Rle_decision (x y : R) : Decision (x <= y) := Rle_dec x y.
#[global] Instance Rlt_decision (x y : R) : Decision (x < y) := Rlt_dec x y.

(** [a ** 2]; on an integer array the squares are integers of the width
    of the array, which is not modelled. *)
Definition np_square (a : ndarray) : outcome ndarray :=
  match a with
  | Arr0 _ | Arr1 _ | Arr2 _ => Ok (np_map (fun x => x ^ 2) a)
  | IArr0 _ | IArr1 _ | IArr2 _ => Raise Unmodelled
  end.

(** [np.sqrt(a)]; the square root of a negative number is NaN, which is
    not a value of the model. *)
Definition np_sqrt (a : ndarray) : outcome ndarray :=
  if decide (Forall (fun x => 0 <= x) (np_flat a))
  then Ok (np_map sqrt a)
  else Raise Unmodelled.

(** [np.sum(a, axis=1)] *)
Definition np_sum_axis1 (a : ndarray) : outcome ndarray :=
  match a with
  | Arr2 rows => Ok (Arr1 (map Rsum rows))
  | IArr2 _ => Raise Unmodelled
  | Arr0 _ | Arr1 _ | IArr0 _ | IArr1 _ => Raise AxisError
  end.

(** [np.std(a)]: the square root of the mean of the squared deviations
    from the mean, over all the elements. *)
Definition np_std (a : ndarray) : ndarray :=
  let xs := np_flat a in
  let m := Rmean xs in
  Arr0 (sqrt (Rmean (map (fun x => (x - m) * (x - m)) xs))).

(** [np.mean(a, axis=0)] *)
Definition np_mean_axis0 (a : ndarray) : outcome ndarray :=
  match np_float a with
  | Arr1 xs => Ok (Arr0 (Rmean xs))
  | Arr2 rows =>
      Ok (Arr1 (map (fun j => Rmean (map (fun row => nth j row 0) rows))
                    (seq 0 (length (hd [] rows)))))
  | _ => Raise AxisError
  end.

(** [np.linalg.norm(a)] with the default order. *)
Definition np_linalg_norm (a : ndarray) : ndarray :=
  Arr0 (sqrt (Rsum (map (fun x => x * x) (np_flat a)))).

(** [a[i]] for a natural number [i]. *)
Definition np_getitem (a : ndarray) (i : nat) : outcome ndarray :=
  match a with
  | Arr0 _ | IArr0 _ => Raise IndexError
  | Arr1 xs =>
      match xs !! i with
      | Some x => Ok (Arr0 x)
      | None => Raise IndexError
      end
  | Arr2 rows =>
      match rows !! i with
      | Some r => Ok (Arr1 r)
      | None => Raise IndexError
      end
  | IArr1 zs =>
      match zs !! i with
      | Some z => Ok (IArr0 z)
      | None => Raise IndexError
      end
  | IArr2 zrows =>
      match zrows !! i with
      | Some r => Ok (IArr1 r)
      | None => Raise IndexError
      end
  end.

(** [len(a)] *)
Definition np_len (a : ndarray) : outcome nat :=
  match a with
  | Arr0 _ | IArr0 _ => Raise TypeError
  | Arr1 xs => Ok (length xs)
  | Arr2 rows => Ok (length rows)
  | IArr1 zs => Ok (length zs)
  | IArr2 zrows => Ok (length zrows)
  end.

(** [a - b] where [b] is a scalar. A float scalar gives a float array.
    An integer scalar taken from an integer array gives an integer array;
    this is modelled where every difference is below 2^31 in absolute
    value, so that it fits an integer array of any width. *)
Definition np_sub (a b : ndarray) : outcome ndarray :=
  match b, a with
  | Arr0 c, _ => Ok (np_map (fun x => x - c) a)
  | IArr0 c, IArr1 zs =>
      if forallb (fun z => (Z.abs (z - c) <? 2 ^ 31)%Z) zs
      then Ok (IArr1 (map (fun z => (z - c)%Z) zs))
      else Raise Unmodelled
  | _, _ => Raise Unmodelled
  end.

(** [a[:, j] += c] on the value of the array, for a float [c]: an integer
    array cannot take the float result. *)
Definition np_col_add (j : nat) (c : R) (a : ndarray) : outcome ndarray :=
  match a with
  | Arr2 rows =>
      if forallb (fun r => Nat.ltb j (length r)) rows
      then Ok (Arr2 (map (alter (fun x => x + c) j) rows))
      else Raise IndexError
  | IArr2 zrows =>
      if forallb (fun r => Nat.ltb j (length r)) zrows
      then Raise UFuncTypeError
      else Raise IndexError
  | Arr0 _ | Arr1 _ | IArr0 _ | IArr1 _ => Raise IndexError
  end.

(** ** The world: array store, standard output, matplotlib calls *)

Definition loc : Type := nat.

(** A piece of a printed line: literal text, or a number under the format
    [:.6f] (the digits are not modelled). *)
Inductive frag : Type :=
| Lit (s : string)
| F6 (x : R).

Inductive plt_call : Type :=
| Figure (width height : nat)
| Subplot (nrows ncols index : nat)
| Plot (x : list R) (y : list pyval) (fmt label : string)
| Title (s : string)
| Xlabel (s : string)
| Ylabel (s : string)
| Grid (b : bool)
| Legend
| Suptitle (s : string)
| TightLayout
| Savefig (path : string)
| Show.

Record world : Type := mk_world {
  heap : list ndarray;
  stdout : list (list frag);
  plt_log : list plt_call
}.

Definition initial_world : world := mk_world [] [] [].

(** Computations that read and change the world and may raise; what was
    printed or stored before an exception stays. *)
Definition M (A : Type) : Type := world -> outcome A * world.

Definition ret {A} (a : A) : M A := fun w => (Ok a, w).

Definition raise {A} (e : exn) : M A := fun w => (Raise e, w).

Definition lift {A} (o : outcome A) : M A := fun w => (o, w).

Definition bind {A B} (m : M A) (k : A -> M B) : M B :=
  fun w =>
    match m w with
    | (Ok a, w') => k a w'
    | (Raise e, w') => (Raise e, w')
    end.

Notation "x <- m ;; k" := (bind m (fun x => k))
  (at level 100, m at next level, right associativity).
Notation "m ;;; k" := (bind m (fun _ => k))
  (at level 100, right associativity).

#[global] Instance ndarray_inhabited : Inhabited ndarray := populate (Arr1 []).

(** A new array object holding [a]. *)
Definition np_alloc (a : ndarray) : M loc :=
  fun w => (Ok (length (heap w)),
            mk_world (heap w ++ [a]) (stdout w) (plt_log w)).

Definition np_read (l : loc) : M ndarray :=
  fun w => (Ok (heap w !!! l), w).

Definition np_write (l : loc) (a : ndarray) : M unit :=
  fun w => (Ok tt, mk_world (<[l := a]> (heap w)) (stdout w) (plt_log w)).

(** [a.copy()] *)
Definition np_copy (l : loc) : M loc :=
  a <- np_read l;; np_alloc a.

(** [a[:, j] += c], in place. *)
Definition np_col_iadd (l : loc) (j : nat) (c : R) : M unit :=
  a <- np_read l;;
  a' <- lift (np_col_add j c a);;
  np_write l a'.

(** One call of [print(...)]; the text of a call may hold a line break. *)
Definition print (l : list frag) : M unit :=
  fun w => (Ok tt, mk_world (heap w) (stdout w ++ [l]) (plt_log w)).

(** A call into [matplotlib.pyplot]. *)
Definition plt (c : plt_call) : M unit :=
  fun w => (Ok tt, mk_world (heap w) (stdout w) (plt_log w ++ [c])).

(** [f"{a:.6f}"]: only a scalar accepts the format. *)
Definition format_6f (a : ndarray) : outcome frag :=
  match a with
  | Arr0 x => Ok (F6 x)
  | IArr0 z => Ok (F6 (IZR z))
  | Arr1 _ | Arr2 _ | IArr1 _ | IArr2 _ => Raise TypeError
  end.

(** [f"{a[i]:.6f}"] *)
Definition format_item_6f (a : ndarray) (i : nat) : outcome frag :=
  x <~ np_getitem a i; format_6f x.

(** [s[start:stop]] for natural numbers; characters are those of [string]. *)
Definition py_slice (s : string) (start stop : nat) : string :=
  String.substring start (stop - start) s.

Definition nl : string := String (Ascii.ascii_of_nat 10) EmptyString.

(** ** Lines 41-59: arrays and statistics *)

(** [np.array(...)] of lines 41-42, as a new array object. *)
Definition new_array2 (l : list (list pyval)) : M loc :=
  a <- lift (np_array2 l);; np_alloc a.

(** [np.array(...)] of line 43. *)
Definition new_array1 (l : list pyval) : M loc :=
  a <- lift (np_array1 l);; np_alloc a.

(** Lines 46-47: the copy, shifted in place on column 2. *)
Definition gravity_adjust (accel_arr : loc) : M loc :=
  gravity_adjusted_accel <- np_copy accel_arr;;
  np_col_iadd gravity_adjusted_accel 2 1;;;
  ret gravity_adjusted_accel.

(** Lines 50 and 56: [np.sqrt(np.sum(a**2, axis=1))]. *)
Definition vector_lengths (arr : loc) : M ndarray :=
  a <- np_read arr;;
  sq <- lift (np_square a);;
  s <- lift (np_sum_axis1 sq);;
  lift (np_sqrt s).

(** Lines 52 and 58: [np.mean(a, axis=0)]. *)
Definition mean_vector (arr : loc) : M ndarray :=
  a <- np_read arr;;
  lift (np_mean_axis0 a).

(** The six statistics of lines 50-59. *)
Record statistics : Type := mk_statistics {
  accel_noise : ndarray;
  accel_bias : ndarray;
  accel_bias_length : ndarray;
  gyro_noise : ndarray;
  gyro_bias : ndarray;
  gyro_bias_length : ndarray
}.

(** Lines 46-59. *)
Definition compute_statistics (accel_arr gyro_arr : loc) : M statistics :=
  gravity_adjusted_accel <- gravity_adjust accel_arr;;
  accel_lengths <- vector_lengths accel_arr;;
  a_bias <- mean_vector gravity_adjusted_accel;;
  gyro_lengths <- vector_lengths gyro_arr;;
  g_bias <- mean_vector gyro_arr;;
  ret (mk_statistics (np_std accel_lengths) a_bias (np_linalg_norm a_bias)
                     (np_std gyro_lengths) g_bias (np_linalg_norm g_bias)).

(** ** Lines 62-71: the report *)

Definition print_noise (noise : ndarray) : M unit :=
  f <- lift (format_6f noise);;
  print [Lit "  Noise (std of vector lengths): "; f].

Definition print_bias (title : string) (bias : ndarray) : M unit :=
  f0 <- lift (format_item_6f bias 0);;
  f1 <- lift (format_item_6f bias 1);;
  f2 <- lift (format_item_6f bias 2);;
  print [Lit title; f0; Lit ", "; f1; Lit ", "; f2; Lit "]"].

Definition print_bias_length (len : ndarray) : M unit :=
  f <- lift (format_6f len);;
  print [Lit "  Bias vector length: "; f].

Definition print_report (st : statistics) : M unit :=
  print [Lit (nl ++ "--- IMU Analysis Results ---")];;;
  print [Lit (nl ++ "Accelerometer:")];;;
  print_noise (accel_noise st);;;
  print_bias "  Bias (average of vectors, gravity adjusted): [" (accel_bias st);;;
  print_bias_length (accel_bias_length st);;;
  print [Lit (nl ++ "Gyroscope:")];;;
  print_noise (gyro_noise st);;;
  print_bias "  Bias (average of vectors): [" (gyro_bias st);;;
  print_bias_length (gyro_bias_length st).

(** ** Lines 74-104: the figure *)

(** Lines 77-80: the time axis starts at 0; the empty array is kept as it
    is (the same object). *)
Definition adjust_timestamps (ts_arr : loc) : M loc :=
  ts <- np_read ts_arr;;
  n <- lift (np_len ts);;
  if Nat.ltb 0 n then
    t0 <- lift (np_getitem ts 0);;
    d <- lift (np_sub ts t0);;
    np_alloc d
  else ret ts_arr.

(** [plt.plot(x, y, fmt, label=...)] for a 1-d array [x] and a list [y]
    of numbers: the two sequences must have the same length. What
    [matplotlib] does with other values is not modelled. *)
Definition plt_plot (x : loc) (y : list pyval) (fmt label : string) : M unit :=
  a <- np_read x;;
  if forallb (fun v => bool_decide (is_Some (as_number v))) y then
    match np_float a with
    | Arr1 xs =>
        if Nat.eqb (length xs) (length y)
        then plt (Plot xs y fmt label)
        else raise ValueError
    | _ => raise Unmodelled
    end
  else raise Unmodelled.

(** The character NUL, which no file name holds. *)
Definition nul : string := String Ascii.zero EmptyString.

(** [plt.suptitle(s)]: the title is logged as plain text; a title with a
    dollar sign may be read as mathtext, which is not modelled. *)
Definition plt_suptitle (s : string) : M unit :=
  if str_contains "$" s then raise Unmodelled else plt (Suptitle s).

(** [plt.savefig(path)]: a path without a directory part is written in the
    current directory, which is taken to be writable; whether the
    directory of another path exists is not modelled, and a name with the
    character NUL is no file name. *)
Definition plt_savefig (path : string) : M unit :=
  if str_contains "/" path || str_contains nul path
  then raise Unmodelled
  else plt (Savefig path).

(** Lines 101 and 103: the part of the path used as a label. *)
Definition path_label (file_path : string) : string := py_slice file_path 0 3.

(** Line 103: the path of the image. *)
Definition image_path (file_path : string) : string :=
  "pitch_roll_time_series" ++ path_label file_path ++ ".png".

Definition plot_panel (index : nat) (x : loc) (y : list pyval)
    (fmt label title ylabel : string) : M unit :=
  plt (Subplot 2 1 index);;;
  plt_plot x y fmt label;;;
  plt (Title title);;;
  plt (Xlabel "Time (seconds)");;;
  plt (Ylabel ylabel);;;
  plt (Grid true);;;
  plt Legend.

Definition plot_series (file_path : string) (ts_arr : loc)
    (pitch roll : list pyval) : M unit :=
  plt (Figure 12 6);;;
  adjusted_timestamps <- adjust_timestamps ts_arr;;
  plot_panel 1 adjusted_timestamps pitch "b-" "Pitch" "Pitch over Time"
             "Pitch (radians)";;;
  plot_panel 2 adjusted_timestamps roll "r-" "Roll" "Roll over Time"
             "Roll (radians)";;;
  plt_suptitle ("Pitch and Roll Time Series" ++ path_label file_path);;;
  plt TightLayout;;;
  plt_savefig (image_path file_path);;;
  plt Show.

(** Lines 106-111: the dict that is returned. *)
Definition result_dict (st : statistics) : gmap string ndarray :=
  <["accel_noise" := accel_noise st]>
    (<["accel_bias" := accel_bias st]>
      (<["gyro_noise" := gyro_noise st]>
        (<["gyro_bias" := gyro_bias st]> ∅))).

(** ** The function of line 10, on the array that [json.load] returned *)

Definition analyze_imu_data (file_path : string) (data : list pyval)
    : M (gmap string ndarray) :=
  ex <- lift (extract data);;
  accel_arr <- new_array2 (accel_data ex);;
  gyro_arr <- new_array2 (gyro_data ex);;
  ts_arr <- new_array1 (timestamps ex);;
  st <- compute_statistics accel_arr gyro_arr;;
  print_report st;;;
  plot_series file_path ts_arr (pitch_values ex) (roll_values ex);;;
  ret (result_dict st).

(** The least real number that rounds to the float infinity. *)
Definition float_overflow : R := IZR (2 ^ 1024 - 2 ^ 970).

(** [v ** 2] on a value read from JSON: a float is squared, with
    [OverflowError] when the square is no float; an integer and a boolean
    are squared as integers; anything else raises [TypeError]. An integer
    whose square is beyond the floats makes the sum or the square root of
    line 8 raise later; the model stops at it. *)
Definition py_square (v : pyval) : outcome R :=
  match v with
  | PFloat r =>
      if decide (r ^ 2 < float_overflow) then Ok (r ^ 2)
      else Raise OverflowError
  | PInt z =>
      if decide (IZR z ^ 2 < float_overflow) then Ok (IZR z ^ 2)
      else Raise Unmodelled
  | PBool b => Ok (if b then 1 else 0)
  | PNone | PStr _ | PList _ | PDict _ => Raise TypeError
  end.

(** Line 6: the length of a vector given as a dict with keys x, y, z;
    each subscript is squared before the next one is evaluated. A sum
    beyond the floats is the float infinity, or an integer that
    [math.sqrt] refuses: neither is modelled. *)
Definition calculate_vector_length (vector : pyval) : outcome R :=
  x <~ py_getitem vector "x";
  x2 <~ py_square x;
  y <~ py_getitem vector "y";
  y2 <~ py_square y;
  z <~ py_getitem vector "z";
  z2 <~ py_square z;
  if decide (x2 + y2 + z2 < float_overflow) then Ok (sqrt (x2 + y2 + z2))
  else Raise Unmodelled.

(** ** The data model of the specification *)

Record vec3 : Type := mk_vec3 { vx : R; vy : R; vz : R }.

(** A vector whose squares and their sum are floats: squaring and adding
    its components does not overflow. *)
Definition in_float_range (v : vec3) : Prop :=
  vx v ^ 2 + vy v ^ 2 + vz v ^ 2 < float_overflow.

(** A sensor record with all its fields. *)
Record SensorRecord : Type := mk_record {
  timestamp : R;
  accelerometer : vec3;
  gyroscope : vec3;
  pitch : R;
  roll : R
}.

(** The guard of the loop as a test: the record is kept. *)
Definition included (entry : pyval) : bool :=
  match has_required_keys entry with
  | Ok b => b
  | Raise _ => false
  end.

(** A JSON object with the three keys [accelerometer], [gyroscope] and
    [orientation]. *)
Definition contains_all_keys (m : gmap string pyval) : Prop :=
  is_Some (m !! "accelerometer") /\ is_Some (m !! "gyroscope") /\
  is_Some (m !! "orientation").

(** An entry on which the loop body does not raise: the guard evaluates,
    and the inner fields are there when the guard holds. *)
Definition well_formed_entry (entry : pyval) : Prop :=
  match has_required_keys entry with
  | Ok true => exists f, entry_fields entry = Ok f
  | Ok false => True
  | Raise _ => False
  end.

(** The JSON object [m] holds everything the loop body reads, and [f] is
    what it contributes: [x], [y], [z] of the sub-objects [accelerometer]
    and [gyroscope], [timestamp], and [pitch] and [roll] of the sub-object
    [orientation]. *)
Definition contributes (m : gmap string pyval) (f : fields) : Prop :=
  exists (a g o : gmap string pyval) (ax ay az gx gy gz t p r : pyval),
    m !! "accelerometer" = Some (PDict a) /\
    a !! "x" = Some ax /\ a !! "y" = Some ay /\ a !! "z" = Some az /\
    m !! "gyroscope" = Some (PDict g) /\
    g !! "x" = Some gx /\ g !! "y" = Some gy /\ g !! "z" = Some gz /\
    m !! "timestamp" = Some t /\
    m !! "orientation" = Some (PDict o) /\
    o !! "pitch" = Some p /\ o !! "roll" = Some r /\
    f = mk_fields [ax; ay; az] [gx; gy; gz] t p r.

(** The JSON object [m] holds all the inner fields. *)
Definition has_inner_fields (m : gmap string pyval) : Prop :=
  exists f, contributes m f.

(** The three sub-objects of [m] are JSON objects. *)
Definition sub_objects_are_dicts (m : gmap string pyval) : Prop :=
  (exists a, m !! "accelerometer" = Some (PDict a)) /\
  (exists g, m !! "gyroscope" = Some (PDict g)) /\
  (exists o, m !! "orientation" = Some (PDict o)).


(** The five lists made of the contributions [fs], in order. *)
Definition of_fields (fs : list fields) : extracted :=
  mk_extracted (map f_accel fs) (map f_gyro fs) (map f_timestamp fs)
               (map f_pitch fs) (map f_roll fs).

(** Reading a record whose numbers are floats out of a JSON object; other
    keys may be present. *)
Definition as_float (v : pyval) : option R :=
  match v with
  | PFloat r => Some r
  | _ => None
  end.

Definition read_number (v : pyval) (key : string) : option R :=
  match v with
  | PDict m => x ← m !! key; as_float x
  | _ => None
  end.

Definition read_sub (v : pyval) (key : string) : option pyval :=
  match v with
  | PDict m => m !! key
  | _ => None
  end.

Definition read_vec3 (v : pyval) (key : string) : option vec3 :=
  sub ← read_sub v key;
  x ← read_number sub "x";
  y ← read_number sub "y";
  z ← read_number sub "z";
  Some (mk_vec3 x y z).

Definition read_record (entry : pyval) : option SensorRecord :=
  a ← read_vec3 entry "accelerometer";
  g ← read_vec3 entry "gyroscope";
  t ← read_number entry "timestamp";
  o ← read_sub entry "orientation";
  p ← read_number o "pitch";
  r ← read_number o "roll";
  Some (mk_record t a g p r).

(** An entry that the loop skips, or a record whose numbers are floats. *)
Definition clean (entry : pyval) : Prop :=
  has_required_keys entry = Ok false \/ is_Some (read_record entry).

(** The valid records of the input, in order. *)
Definition valid_records (data : list pyval) : list SensorRecord :=
  omap read_record data.

Definition vec_row (v : vec3) : list R := [vx v; vy v; vz v].

Definition record_fields (r : SensorRecord) : fields :=
  mk_fields (map PFloat (vec_row (accelerometer r)))
            (map PFloat (vec_row (gyroscope r)))
            (PFloat (timestamp r)) (PFloat (pitch r)) (PFloat (roll r)).

(** The statistics in the words of the specification. *)
Definition euclidean_norm (v : vec3) : R :=
  sqrt (vx v * vx v + vy v * vy v + vz v * vz v).

Definition population_std (xs : list R) : R :=
  let mu := Rsum xs / INR (length xs) in
  sqrt (Rsum (map (fun x => (x - mu) * (x - mu)) xs) / INR (length xs)).

Definition column_mean (vs : list vec3) : vec3 :=
  mk_vec3 (Rmean (map vx vs)) (Rmean (map vy vs)) (Rmean (map vz vs)).

Definition gravity_adjusted (v : vec3) : vec3 :=
  mk_vec3 (vx v) (vy v) (vz v + 1).

(** The first [n] characters of a string. *)
Fixpoint first_chars (n : nat) (s : string) : string :=
  match n, s with
  | S n', String c rest => String c (first_chars n' rest)
  | _, _ => EmptyString
  end.

(** A character that makes the label more than plain text: the slash
    puts the image in another directory, NUL is refused in a file name,
    the dollar sign starts mathtext in the title. *)
Definition special_char (c : ascii) : bool :=
  Ascii.eqb c "/"%char || Ascii.eqb c "$"%char || Ascii.eqb c Ascii.zero.

(** The first three characters of [file_path] are plain: the title is
    plain text and the image is a file of the current directory. *)
Definition plain_label (file_path : string) : Prop :=
  existsb special_char (String.list_ascii_of_string (first_chars 3 file_path)) = false.


(** ** The run on valid records, in closed form *)

Definition noise_of (vs : list vec3) : R :=
  population_std (map euclidean_norm vs).

Definition expected_statistics (recs : list SensorRecord) : statistics :=
  let a_bias := column_mean (map gravity_adjusted (map accelerometer recs)) in
  let g_bias := column_mean (map gyroscope recs) in
  mk_statistics (Arr0 (noise_of (map accelerometer recs)))
                (Arr1 (vec_row a_bias)) (Arr0 (euclidean_norm a_bias))
                (Arr0 (noise_of (map gyroscope recs)))
                (Arr1 (vec_row g_bias)) (Arr0 (euclidean_norm g_bias)).

(** The timestamps counted from the first one. *)
Definition shifted (ts : list R) : list R :=
  match ts with
  | [] => []
  | t0 :: _ => map (fun t => t - t0) ts
  end.

Definition expected_heap (recs : list SensorRecord) : list ndarray :=
  [Arr2 (map vec_row (map accelerometer recs));
   Arr2 (map vec_row (map gyroscope recs));
   Arr1 (map timestamp recs);
   Arr2 (map vec_row (map gravity_adjusted (map accelerometer recs)));
   Arr1 (shifted (map timestamp recs))].

Definition bias_line (title : string) (b : vec3) : list frag :=
  [Lit title; F6 (vx b); Lit ", "; F6 (vy b); Lit ", "; F6 (vz b); Lit "]"].

Definition expected_stdout (recs : list SensorRecord) : list (list frag) :=
  let a_bias := column_mean (map gravity_adjusted (map accelerometer recs)) in
  let g_bias := column_mean (map gyroscope recs) in
  [[Lit (nl ++ "--- IMU Analysis Results ---")];
   [Lit (nl ++ "Accelerometer:")];
   [Lit "  Noise (std of vector lengths): ";
    F6 (noise_of (map accelerometer recs))];
   bias_line "  Bias (average of vectors, gravity adjusted): [" a_bias;
   [Lit "  Bias vector length: "; F6 (euclidean_norm a_bias)];
   [Lit (nl ++ "Gyroscope:")];
   [Lit "  Noise (std of vector lengths): ";
    F6 (noise_of (map gyroscope recs))];
   bias_line "  Bias (average of vectors): [" g_bias;
   [Lit "  Bias vector length: "; F6 (euclidean_norm g_bias)]].

Definition expected_plt_log (file_path : string) (recs : list SensorRecord)
    : list plt_call :=
  let x := shifted (map timestamp recs) in
  [Figure 12 6;
   Subplot 2 1 1;
   Plot x (map PFloat (map pitch recs)) "b-" "Pitch";
   Title "Pitch over Time"; Xlabel "Time (seconds)"; Ylabel "Pitch (radians)";
   Grid true; Legend;
   Subplot 2 1 2;
   Plot x (map PFloat (map roll recs)) "r-" "Roll";
   Title "Roll over Time"; Xlabel "Time (seconds)"; Ylabel "Roll (radians)";
   Grid true; Legend;
   Suptitle ("Pitch and Roll Time Series" ++ first_chars 3 file_path);
   TightLayout;
   Savefig ("pitch_roll_time_series" ++ first_chars 3 file_path ++ ".png");
   Show].

Definition expected_world (file_path : string) (recs : list SensorRecord)
    : world :=
  mk_world (expected_heap recs) (expected_stdout recs)
           (expected_plt_log file_path recs).


(** The paths handed to [plt.savefig], in order. *)
Definition saved_images (w : world) : list string :=
  omap (fun c => match c with
                 | Savefig path => Some path
                 | _ => None
                 end) (plt_log w).

(** A computation that makes no call into [matplotlib]. *)
Definition keeps_plt_log {A} (m : M A) : Prop :=
  forall w, plt_log (snd (m w)) = plt_log w.

(** ** Sample inputs *)

Definition vec_dict (x y z : R) : pyval :=
  PDict (<["x" := PFloat x]> (<["y" := PFloat y]> (<["z" := PFloat z]> ∅))).

(** A record with all its fields, the numbers being floats. *)
Definition record_dict (t ax ay az gx gy gz p r : R) : pyval :=
  PDict (<["timestamp" := PFloat t]>
         (<["accelerometer" := vec_dict ax ay az]>
          (<["gyroscope" := vec_dict gx gy gz]>
           (<["orientation" :=
               PDict (<["pitch" := PFloat p]> (<["roll" := PFloat r]> ∅))]> ∅)))).

(** A record without [orientation]. *)
Definition record_without_orientation : pyval :=
  PDict (<["timestamp" := PFloat 1]>
         (<["accelerometer" := vec_dict 0 0 (-1)]>
          (<["gyroscope" := vec_dict 0 0 0]> ∅))).

(** A record with the three sub-objects, all of them empty. *)
Definition record_without_inner_fields : pyval :=
  PDict (<["timestamp" := PFloat 1]>
         (<["accelerometer" := PDict ∅]>
          (<["gyroscope" := PDict ∅]>
           (<["orientation" := PDict ∅]> ∅)))).

(** A record with the three sub-objects and no [timestamp]. *)
Definition record_without_timestamp : pyval :=
  PDict (<["accelerometer" := vec_dict 0 0 (-1)]>
         (<["gyroscope" := vec_dict 0 0 0]>
          (<["orientation" :=
              PDict (<["pitch" := PFloat 0]> (<["roll" := PFloat 0]> ∅))]> ∅))).

(** A record with the three sub-objects whose [accelerometer] has no z. *)
Definition record_without_accel_z : pyval :=
  PDict (<["timestamp" := PFloat 1]>
         (<["accelerometer" :=
             PDict (<["x" := PFloat 0]> (<["y" := PFloat 0]> ∅))]>
          (<["gyroscope" := vec_dict 0 0 0]>
           (<["orientation" :=
               PDict (<["pitch" := PFloat 0]> (<["roll" := PFloat 0]> ∅))]> ∅)))).

(** A record whose accelerometer values are the integers [ax], [ay], [az],
    the other numbers being floats. *)
Definition integer_accel_record (t : R) (ax ay az : Z) (gx gy gz p r : R)
    : pyval :=
  PDict (<["timestamp" := PFloat t]>
         (<["accelerometer" :=
             PDict (<["x" := PInt ax]> (<["y" := PInt ay]>
                    (<["z" := PInt az]> ∅)))]>
          (<["gyroscope" := vec_dict gx gy gz]>
           (<["orientation" :=
               PDict (<["pitch" := PFloat p]> (<["roll" := PFloat r]> ∅))]> ∅)))).

(** Three entries, the second without [orientation]; all the numbers are
    floats. *)
Definition sample_data : list pyval :=
  [record_dict 10 1 0 0 0 0 0 0 0;
   record_without_orientation;
   record_dict 12 0 3 0 0 0 0 0 0].

(** ** Further notions used in the statements *)

(** The lists of [a] followed by the lists of [b]. *)
Definition extracted_app (a b : extracted) : extracted :=
  mk_extracted (accel_data a ++ accel_data b)
               (gyro_data a ++ gyro_data b)
               (timestamps a ++ timestamps b)
               (pitch_values a ++ pitch_values b)
               (roll_values a ++ roll_values b).

(** The keys the loop body subscripts without a guard. *)
Definition unguarded_keys : list string :=
  ["x"; "y"; "z"; "timestamp"; "pitch"; "roll"].

(** The keys of a record that the loop looks at. *)
Definition record_keys : list string :=
  ["accelerometer"; "gyroscope"; "orientation"; "timestamp"].

(** ** Lines 114-150: the script *)

(** How the script ends: all the calls returned, or [open] did not find a
    file, or a call raised. The files hold JSON arrays; a file that is not
    JSON, or whose top-level value is not an array, is not modelled. *)
Inductive script_outcome : Type :=
| Finished
| FileNotFoundError (path : string)
| Uncaught (e : exn).

(** Lines 12-13 and the rest of [analyze_imu_data], on the files given by
    [files]; the returned dict is assigned to [results] and not used. *)
Definition analyze_file (files : gmap string (list pyval)) (path : string)
    (w : world) : script_outcome * world :=
  match files !! path with
  | None => (FileNotFoundError path, w)
  | Some data =>
      match analyze_imu_data path data w with
      | (Ok _, w') => (Finished, w')
      | (Raise e, w') => (Uncaught e, w')
      end
  end.

(** The calls for [paths] one after the other; the first exception ends
    the script. *)
Fixpoint run_script (files : gmap string (list pyval)) (paths : list string)
    (w : world) : script_outcome * world :=
  match paths with
  | [] => (Finished, w)
  | path :: rest =>
      match analyze_file files path w with
      | (Finished, w') => run_script files rest w'
      | other => other
      end
  end.

(** The five paths of lines 115, 117, 121, 135 and 149. *)
Definition main_paths : list string :=
  ["1.json"; "2.json"; "accelerometerOnly.json"; "gyroscopeOnly.json";
   "complementaryFilter.json"].

Definition main (files : gmap string (list pyval)) : script_outcome * world :=
  run_script files main_paths initial_world.

(** A file that holds a clean array with at least one valid record, and
    whose path has a plain label. *)
Definition clean_file (files : gmap string (list pyval)) (path : string)
    : Prop :=
  plain_label path /\
  exists data, files !! path = Some data /\ Forall clean data /\
               valid_records data <> [].

(** Five files that all hold the sample array. *)
Definition sample_files : gmap string (list pyval) :=
  <["1.json" := sample_data]>
    (<["2.json" := sample_data]>
      (<["accelerometerOnly.json" := sample_data]>
        (<["gyroscopeOnly.json" := sample_data]>
          (<["complementaryFilter.json" := sample_data]> ∅)))).

(** * Lemmas and theorems *)

(** ** Lemmas on the filtering pass *)

Lemma has_required_keys_dict (m : gmap string pyval) :
  has_required_keys (PDict m) =
  Ok (bool_decide (is_Some (m !! "accelerometer")) &&
      bool_decide (is_Some (m !! "gyroscope")) &&
      bool_decide (is_Some (m !! "orientation"))).
Proof.
  unfold has_required_keys; simpl.
  destruct (bool_decide (is_Some (m !! "accelerometer"))); simpl; [|reflexivity].
  destruct (bool_decide (is_Some (m !! "gyroscope"))); reflexivity.
Qed.

Lemma included_dict (m : gmap string pyval) :
  included (PDict m) = true <-> contains_all_keys m.
Proof.
  unfold included, contains_all_keys. rewrite has_required_keys_dict.
  rewrite !andb_true_iff, !bool_decide_eq_true. tauto.
Qed.

Lemma loop_body_skip (acc : extracted) (entry : pyval) :
  has_required_keys entry = Ok false -> loop_body acc entry = Ok acc.
Proof. intros H. unfold loop_body. rewrite H. reflexivity. Qed.

Lemma loop_body_keep (acc : extracted) (entry : pyval) (f : fields) :
  has_required_keys entry = Ok true -> entry_fields entry = Ok f ->
  loop_body acc entry = Ok (push acc f).
Proof.
  intros H Hf. unfold loop_body, append_entry. rewrite H. simpl.
  rewrite Hf. reflexivity.
Qed.

Lemma push_of_fields (fs : list fields) (f : fields) :
  push (of_fields fs) f = of_fields (fs ++ [f]).
Proof. unfold push, of_fields; simpl. rewrite !map_app. reflexivity. Qed.

(** The loop, started on the lists of [pre], ends on the lists of [pre]
    followed by the contributions of the kept entries. *)
Lemma extract_from_ok (data : list pyval) :
  forall (pre : list fields) (ex : extracted),
    extract_from (of_fields pre) data = Ok ex ->
    exists fs,
      Forall2 (fun e f => entry_fields e = Ok f) (List.filter included data) fs /\
      ex = of_fields (pre ++ fs).
Proof.
  induction data as [|e data IH]; intros pre ex H; simpl in H.
  - exists []. split; [constructor|]. rewrite app_nil_r. congruence.
  - unfold loop_body in H. simpl. unfold included at 1.
    destruct (has_required_keys e) as [[|]|x]; simpl in H; try discriminate.
    + unfold append_entry in H.
      destruct (entry_fields e) as [f|x] eqn:Hf; simpl in H; try discriminate.
      rewrite push_of_fields in H.
      destruct (IH _ _ H) as (fs & HF & ->).
      exists (f :: fs). split; [constructor; assumption|].
      rewrite <- app_assoc. reflexivity.
    + apply IH in H. exact H.
Qed.

Lemma extract_from_total (data : list pyval) :
  Forall well_formed_entry data ->
  forall acc, exists ex, extract_from acc data = Ok ex.
Proof.
  induction 1 as [|e data He _ IH]; intros acc; simpl.
  - eauto.
  - unfold loop_body, append_entry. unfold well_formed_entry in He.
    destruct (has_required_keys e) as [[|]|x]; simpl; try contradiction.
    + destruct He as [f ->]. simpl. apply IH.
    + apply IH.
Qed.

Lemma filter_partition_length {A} (p : A -> bool) (l : list A) :
  (length (List.filter p l) + length (List.filter (fun x => negb (p x)) l)
   = length l)%nat.
Proof.
  induction l as [|x l IH]; simpl; [reflexivity|].
  destruct (p x); simpl; lia.
Qed.

(** ** Lemmas on reading records *)

Lemma read_number_getitem (v : pyval) (key : string) (x : R) :
  read_number v key = Some x -> py_getitem v key = Ok (PFloat x).
Proof.
  destruct v as [| | | | | |m]; simpl; try discriminate.
  destruct (m !! key) as [[| | |r| | |]|]; simpl; try discriminate.
  congruence.
Qed.

Lemma read_sub_getitem (v : pyval) (key : string) (sub : pyval) :
  read_sub v key = Some sub -> py_getitem v key = Ok sub.
Proof.
  destruct v as [| | | | | |m]; simpl; try discriminate.
  intros ->. reflexivity.
Qed.

Lemma read_sub_in (v : pyval) (key : string) (sub : pyval) :
  read_sub v key = Some sub -> py_in key v = Ok true.
Proof.
  destruct v as [| | | | | |m]; simpl; try discriminate.
  intros ->. rewrite bool_decide_eq_true_2; eauto.
Qed.

Lemma read_record_fields (e : pyval) (r : SensorRecord) :
  read_record e = Some r ->
  has_required_keys e = Ok true /\ entry_fields e = Ok (record_fields r).
Proof.
  unfold read_record, read_vec3. intros H.
  destruct (read_sub e "accelerometer") as [a|] eqn:Ha; simpl in H; [|discriminate].
  destruct (read_number a "x") as [ax|] eqn:Hax; simpl in H; [|discriminate].
  destruct (read_number a "y") as [ay|] eqn:Hay; simpl in H; [|discriminate].
  destruct (read_number a "z") as [az|] eqn:Haz; simpl in H; [|discriminate].
  destruct (read_sub e "gyroscope") as [g|] eqn:Hg; simpl in H; [|discriminate].
  destruct (read_number g "x") as [gx|] eqn:Hgx; simpl in H; [|discriminate].
  destruct (read_number g "y") as [gy|] eqn:Hgy; simpl in H; [|discriminate].
  destruct (read_number g "z") as [gz|] eqn:Hgz; simpl in H; [|discriminate].
  destruct (read_number e "timestamp") as [t|] eqn:Ht; simpl in H; [|discriminate].
  destruct (read_sub e "orientation") as [o|] eqn:Ho; simpl in H; [|discriminate].
  destruct (read_number o "pitch") as [p|] eqn:Hp; simpl in H; [|discriminate].
  destruct (read_number o "roll") as [q|] eqn:Hq; simpl in H; [|discriminate].
  injection H as <-.
  split.
  - unfold has_required_keys.
    rewrite (read_sub_in _ _ _ Ha), (read_sub_in _ _ _ Hg); simpl.
    exact (read_sub_in _ _ _ Ho).
  - unfold entry_fields, py_getitem2.
    rewrite (read_sub_getitem _ _ _ Ha), (read_sub_getitem _ _ _ Hg),
      (read_sub_getitem _ _ _ Ho), (read_number_getitem _ _ _ Ht); simpl.
    rewrite (read_number_getitem _ _ _ Hax), (read_number_getitem _ _ _ Hay),
      (read_number_getitem _ _ _ Haz), (read_number_getitem _ _ _ Hgx),
      (read_number_getitem _ _ _ Hgy), (read_number_getitem _ _ _ Hgz),
      (read_number_getitem _ _ _ Hp), (read_number_getitem _ _ _ Hq); simpl.
    reflexivity.
Qed.

Lemma read_record_skipped (e : pyval) :
  has_required_keys e = Ok false -> read_record e = None.
Proof.
  intros H. destruct (read_record e) as [r|] eqn:Hr; [|reflexivity].
  apply read_record_fields in Hr as [Hk _]. congruence.
Qed.

Lemma clean_well_formed (e : pyval) : clean e -> well_formed_entry e.
Proof.
  unfold well_formed_entry. intros [H|[r Hr]].
  - rewrite H. exact I.
  - apply read_record_fields in Hr as [-> Hf]. eauto.
Qed.

Lemma extract_from_clean (data : list pyval) :
  Forall clean data ->
  forall pre,
    extract_from (of_fields pre) data =
    Ok (of_fields (pre ++ map record_fields (valid_records data))).
Proof.
  induction 1 as [|e data He _ IH]; intros pre; simpl.
  - rewrite app_nil_r. reflexivity.
  - unfold valid_records; simpl. destruct He as [Hs|[r Hr]].
    + rewrite (loop_body_skip _ _ Hs), (read_record_skipped _ Hs). simpl.
      apply IH.
    + rewrite Hr. destruct (read_record_fields _ _ Hr) as [Hk Hf].
      rewrite (loop_body_keep _ _ _ Hk Hf). simpl.
      rewrite push_of_fields, IH, <- app_assoc. reflexivity.
Qed.

Lemma extract_clean (data : list pyval) :
  Forall clean data ->
  extract data = Ok (of_fields (map record_fields (valid_records data))).
Proof. intros H. exact (extract_from_clean data H []). Qed.

(** ** Lemmas on the array functions *)

Lemma mapM_as_number (xs : list R) :
  mapM as_number (map PFloat xs) = Some (map NFloat xs).
Proof.
  induction xs as [|x xs IH]; simpl; [reflexivity|].
  rewrite IH. reflexivity.
Qed.

Lemma mapM_rows (vs : list vec3) :
  mapM (mapM as_number) (map (fun v => map PFloat (vec_row v)) vs)
  = Some (map (fun v => map NFloat (vec_row v)) vs).
Proof.
  induction vs as [|v vs IH]; [reflexivity|].
  cbn [map mapM]. rewrite IH. reflexivity.
Qed.

Lemma forallb_fits_floats (xs : list R) : forallb fits (map NFloat xs) = true.
Proof. induction xs as [|x xs IH]; simpl; [reflexivity|exact IH]. Qed.

Lemma map_to_float_floats (xs : list R) : map to_float (map NFloat xs) = xs.
Proof.
  induction xs as [|x xs IH]; simpl; [reflexivity|]. rewrite IH. reflexivity.
Qed.

Lemma np_array1_nums (xs : list R) : np_array1 (map PFloat xs) = Ok (Arr1 xs).
Proof.
  unfold np_array1. rewrite mapM_as_number, forallb_fits_floats.
  destruct xs as [|x xs]; [reflexivity|].
  cbn [map mapM as_int mbind option_bind]. simpl.
  rewrite map_to_float_floats. reflexivity.
Qed.

Lemma forallb_rows {A} (f : vec3 -> list A) (p : list A -> bool)
    (vs : list vec3) :
  (forall v, p (f v) = true) -> forallb p (map f vs) = true.
Proof.
  intros Hp. induction vs as [|v vs IH]; simpl; [reflexivity|].
  rewrite Hp. exact IH.
Qed.

Lemma np_array2_rows (vs : list vec3) :
  vs <> [] ->
  np_array2 (map (fun v => map PFloat (vec_row v)) vs) = Ok (Arr2 (map vec_row vs)).
Proof.
  intros Hne. destruct vs as [|v vs]; [contradiction|].
  unfold np_array2.
  change (map (fun v => map PFloat (vec_row v)) (v :: vs))
    with (map PFloat (vec_row v) :: map (fun v => map PFloat (vec_row v)) vs) at 1.
  cbv iota. rewrite mapM_rows.
  rewrite (forallb_rows (fun v => map NFloat (vec_row v)))
    by (intros u; reflexivity).
  rewrite (forallb_rows (fun v => map NFloat (vec_row v)))
    by (intros u; reflexivity).
  cbn [andb map concat vec_row app mapM as_int mbind option_bind].
  simpl. rewrite map_map. f_equal.
Qed.

Lemma np_col_add_rows (vs : list vec3) :
  np_col_add 2 1 (Arr2 (map vec_row vs))
  = Ok (Arr2 (map vec_row (map gravity_adjusted vs))).
Proof.
  unfold np_col_add.
  rewrite (forallb_rows vec_row) by (intros u; reflexivity).
  rewrite !map_map. reflexivity.
Qed.

Lemma np_square_rows (vs : list vec3) :
  np_square (Arr2 (map vec_row vs))
  = Ok (Arr2 (map (fun v => [vx v ^ 2; vy v ^ 2; vz v ^ 2]) vs)).
Proof.
  unfold np_square, np_map, np_float. rewrite map_map. reflexivity.
Qed.

Lemma np_sum_axis1_squares (vs : list vec3) :
  np_sum_axis1 (Arr2 (map (fun v => [vx v ^ 2; vy v ^ 2; vz v ^ 2]) vs))
  = Ok (Arr1 (map (fun v => vx v * vx v + vy v * vy v + vz v * vz v) vs)).
Proof.
  unfold np_sum_axis1. rewrite map_map.
  do 2 f_equal. apply map_ext. intros v. unfold Rsum; simpl. ring.
Qed.

Lemma sum_of_squares_nonneg (x y z : R) : 0 <= x * x + y * y + z * z.
Proof.
  pose proof (Rle_0_sqr x). pose proof (Rle_0_sqr y).
  pose proof (Rle_0_sqr z). unfold Rsqr in *. lra.
Qed.

Lemma np_sqrt_lengths (vs : list vec3) :
  np_sqrt (Arr1 (map (fun v => vx v * vx v + vy v * vy v + vz v * vz v) vs))
  = Ok (Arr1 (map euclidean_norm vs)).
Proof.
  unfold np_sqrt, np_map, np_flat, np_float.
  rewrite decide_True.
  - rewrite map_map. reflexivity.
  - apply Forall_fmap, Forall_true. intros v. simpl.
    apply sum_of_squares_nonneg.
Qed.

Lemma np_std_population (xs : list R) :
  np_std (Arr1 xs) = Arr0 (population_std xs).
Proof.
  unfold np_std, population_std, Rmean, np_flat, np_float.
  rewrite length_map. reflexivity.
Qed.

Lemma np_mean_axis0_rows (vs : list vec3) :
  vs <> [] ->
  np_mean_axis0 (Arr2 (map vec_row vs)) = Ok (Arr1 (vec_row (column_mean vs))).
Proof.
  intros Hne. unfold np_mean_axis0, np_float, column_mean. do 2 f_equal.
  replace (seq 0 (length (hd [] (map vec_row vs)))) with [0; 1; 2]%nat
    by (destruct vs; [contradiction|reflexivity]).
  cbn [map vec_row vx vy vz].
  rewrite !map_map. reflexivity.
Qed.

Lemma np_linalg_norm_vec (v : vec3) :
  np_linalg_norm (Arr1 (vec_row v)) = Arr0 (euclidean_norm v).
Proof.
  unfold np_linalg_norm, euclidean_norm, vec_row, np_flat, np_float, Rsum;
    simpl.
  do 2 f_equal. ring.
Qed.

Lemma substring_first_chars (n : nat) (s : string) :
  String.substring 0 n s = first_chars n s.
Proof.
  revert s. induction n as [|n IH]; intros [|c s]; simpl; try reflexivity.
  rewrite IH. reflexivity.
Qed.

Lemma image_path_first_chars (file_path : string) :
  image_path file_path
  = "pitch_roll_time_series" ++ first_chars 3 file_path ++ ".png".
Proof.
  unfold image_path, path_label, py_slice.
  rewrite substring_first_chars. reflexivity.
Qed.

(** ** The run of the function on the arrays of valid records *)

Ltac run_step :=
  unfold bind, lift, ret, raise, np_read, np_alloc, np_write, print, plt;
  cbn [heap stdout plt_log length app fst snd].

Lemma bind_run {A B} (m : M A) (k : A -> M B) (w w' : world) (a : A)
    (r : outcome B * world) :
  m w = (Ok a, w') -> k a w' = r -> bind m k w = r.
Proof. intros Hm Hk. unfold bind. rewrite Hm. exact Hk. Qed.

Lemma bind_raise {A B} (m : M A) (k : A -> M B) (w w' : world) (e : exn) :
  m w = (Raise e, w') -> bind m k w = (Raise e, w').
Proof. intros Hm. unfold bind. rewrite Hm. reflexivity. Qed.

Lemma plt_run (c : plt_call) (h : list ndarray) (out : list (list frag))
    (fig : list plt_call) :
  plt c (mk_world h out fig) = (Ok tt, mk_world h out (fig ++ [c])).
Proof. reflexivity. Qed.

Lemma np_alloc_run (a : ndarray) (h : list ndarray) (out : list (list frag))
    (fig : list plt_call) :
  np_alloc a (mk_world h out fig) = (Ok (length h), mk_world (h ++ [a]) out fig).
Proof. reflexivity. Qed.

Lemma print_run (l : list frag) (h : list ndarray) (out : list (list frag))
    (fig : list plt_call) :
  print l (mk_world h out fig) = (Ok tt, mk_world h (out ++ [l]) fig).
Proof. reflexivity. Qed.

Lemma lookup_app_plus {A} (h l : list A) (i : nat) :
  ((h ++ l)%list) !! (length h + i)%nat = l !! i.
Proof.
  rewrite lookup_app_r by lia. f_equal. lia.
Qed.

Lemma gravity_adjust_run (h : list ndarray) (out : list (list frag))
    (fig : list plt_call) (a : loc) (vs : list vec3) :
  h !! a = Some (Arr2 (map vec_row vs)) ->
  gravity_adjust a (mk_world h out fig)
  = (Ok (length h),
     mk_world (h ++ [Arr2 (map vec_row (map gravity_adjusted vs))]) out fig).
Proof.
  intros Hl. unfold gravity_adjust, np_copy, np_col_iadd. run_step.
  rewrite (list_lookup_total_correct _ _ _ Hl).
  rewrite (list_lookup_total_correct (h ++ [Arr2 (map vec_row vs)]) (length h)
             (Arr2 (map vec_row vs)))
    by (apply list_lookup_middle; reflexivity).
  rewrite np_col_add_rows.
  rewrite (insert_app_r_alt h _ (length h)) by lia.
  rewrite Nat.sub_diag. reflexivity.
Qed.

Lemma gravity_adjust_int_run (h : list ndarray) (out : list (list frag))
    (fig : list plt_call) (a : loc) (zrows : list (list Z)) :
  h !! a = Some (IArr2 zrows) ->
  Forall (fun r => length r = 3%nat) zrows ->
  gravity_adjust a (mk_world h out fig)
  = (Raise UFuncTypeError, mk_world (h ++ [IArr2 zrows]) out fig).
Proof.
  intros Hl Hrows. unfold gravity_adjust, np_copy, np_col_iadd. run_step.
  rewrite (list_lookup_total_correct _ _ _ Hl).
  rewrite (list_lookup_total_correct (h ++ [IArr2 zrows]) (length h)
             (IArr2 zrows))
    by (apply list_lookup_middle; reflexivity).
  unfold np_col_add.
  replace (forallb (fun r => Nat.ltb 2 (length r)) zrows) with true;
    [reflexivity|].
  symmetry. apply forallb_forall. intros r Hr.
  rewrite List.Forall_forall in Hrows. rewrite (Hrows r Hr). reflexivity.
Qed.

Lemma vector_lengths_run (h : list ndarray) (out : list (list frag))
    (fig : list plt_call) (l : loc) (vs : list vec3) :
  h !! l = Some (Arr2 (map vec_row vs)) ->
  vector_lengths l (mk_world h out fig)
  = (Ok (Arr1 (map euclidean_norm vs)), mk_world h out fig).
Proof.
  intros Hl. unfold vector_lengths. run_step.
  rewrite (list_lookup_total_correct _ _ _ Hl).
  rewrite np_square_rows. rewrite np_sum_axis1_squares.
  rewrite np_sqrt_lengths. reflexivity.
Qed.

Lemma mean_vector_run (h : list ndarray) (out : list (list frag))
    (fig : list plt_call) (l : loc) (vs : list vec3) :
  vs <> [] -> h !! l = Some (Arr2 (map vec_row vs)) ->
  mean_vector l (mk_world h out fig)
  = (Ok (Arr1 (vec_row (column_mean vs))), mk_world h out fig).
Proof.
  intros Hne Hl. unfold mean_vector. run_step.
  rewrite (list_lookup_total_correct _ _ _ Hl).
  rewrite (np_mean_axis0_rows _ Hne). reflexivity.
Qed.

Lemma compute_statistics_run (recs : list SensorRecord)
    (h : list ndarray) (out : list (list frag)) (fig : list plt_call)
    (a g : loc) :
  recs <> [] ->
  h !! a = Some (Arr2 (map vec_row (map accelerometer recs))) ->
  h !! g = Some (Arr2 (map vec_row (map gyroscope recs))) ->
  compute_statistics a g (mk_world h out fig)
  = (Ok (expected_statistics recs),
     mk_world
       (h ++ [Arr2 (map vec_row (map gravity_adjusted (map accelerometer recs)))])
       out fig).
Proof.
  intros Hne Ha Hg.
  assert (Hg' : map gyroscope recs <> [])
    by (destruct recs; [contradiction|discriminate]).
  assert (Hga : map gravity_adjusted (map accelerometer recs) <> [])
    by (destruct recs; [contradiction|discriminate]).
  unfold compute_statistics.
  eapply bind_run; [apply gravity_adjust_run; exact Ha|].
  eapply bind_run.
  { apply vector_lengths_run.
    rewrite lookup_app_l by exact (lookup_lt_Some _ _ _ Ha). exact Ha. }
  eapply bind_run.
  { apply (mean_vector_run _ _ _ _ _ Hga).
    apply list_lookup_middle. reflexivity. }
  eapply bind_run.
  { apply vector_lengths_run.
    rewrite lookup_app_l by exact (lookup_lt_Some _ _ _ Hg). exact Hg. }
  eapply bind_run.
  { apply (mean_vector_run _ _ _ _ _ Hg').
    rewrite lookup_app_l by exact (lookup_lt_Some _ _ _ Hg). exact Hg. }
  unfold ret. rewrite !np_std_population, !np_linalg_norm_vec. reflexivity.
Qed.

Lemma print_report_run (recs : list SensorRecord) (h : list ndarray)
    (out : list (list frag)) (fig : list plt_call) :
  print_report (expected_statistics recs) (mk_world h out fig)
  = (Ok tt, mk_world h (out ++ expected_stdout recs) fig).
Proof.
  transitivity
    (Ok tt,
     mk_world h (foldl (fun acc l => (acc ++ [l])%list) out
                       (expected_stdout recs)) fig).
  - reflexivity.
  - do 2 f_equal. unfold expected_stdout. cbv zeta. cbn [foldl].
    rewrite <- !app_assoc. reflexivity.
Qed.

Lemma adjust_timestamps_run (ts : list R) (h : list ndarray)
    (out : list (list frag)) (fig : list plt_call) (l : loc) :
  h !! l = Some (Arr1 ts) -> ts <> [] ->
  adjust_timestamps l (mk_world h out fig)
  = (Ok (length h), mk_world (h ++ [Arr1 (shifted ts)]) out fig).
Proof.
  intros Hl Hne. unfold adjust_timestamps. run_step.
  rewrite (list_lookup_total_correct _ _ _ Hl).
  destruct ts as [|t0 ts]; [contradiction|].
  reflexivity.
Qed.


Lemma numbers_are_numeric (ys : list R) :
  forallb (fun v => bool_decide (is_Some (as_number v))) (map PFloat ys) = true.
Proof.
  induction ys as [|y ys IH]; [reflexivity|]. simpl. exact IH.
Qed.

Lemma plt_plot_run (xs ys : list R) (fmt label : string)
    (h : list ndarray) (out : list (list frag)) (fig : list plt_call) (l : loc) :
  h !! l = Some (Arr1 xs) -> length xs = length ys ->
  plt_plot l (map PFloat ys) fmt label (mk_world h out fig)
  = (Ok tt, mk_world h out (fig ++ [Plot xs (map PFloat ys) fmt label])).
Proof.
  intros Hl Hlen. unfold plt_plot. run_step.
  rewrite (list_lookup_total_correct _ _ _ Hl), numbers_are_numeric.
  cbn [np_float]. rewrite length_map, Hlen, Nat.eqb_refl.
  reflexivity.
Qed.

Lemma length_shifted (ts : list R) : length (shifted ts) = length ts.
Proof. destruct ts; [reflexivity|]. unfold shifted. apply length_map. Qed.

Lemma path_label_first_chars (file_path : string) :
  path_label file_path = first_chars 3 file_path.
Proof. unfold path_label, py_slice. apply substring_first_chars. Qed.

Lemma str_contains_char (c : ascii) (s : string) :
  str_contains (String c EmptyString) s
  = existsb (Ascii.eqb c) (String.list_ascii_of_string s).
Proof.
  induction s as [|a s IH]; [reflexivity|].
  cbn [str_contains String.prefix String.list_ascii_of_string existsb].
  rewrite IH. destruct (ascii_dec c a) as [->|Hne].
  - rewrite Ascii.eqb_refl. destruct s; reflexivity.
  - apply Ascii.eqb_neq in Hne. rewrite Hne. reflexivity.
Qed.

Lemma list_ascii_of_string_app (s t : string) :
  String.list_ascii_of_string (s ++ t)
  = (String.list_ascii_of_string s ++ String.list_ascii_of_string t)%list.
Proof.
  induction s as [|a s IH]; [reflexivity|].
  change (String a s ++ t) with (String a (s ++ t)).
  cbn [String.list_ascii_of_string app]. rewrite IH. reflexivity.
Qed.

Lemma plain_label_chars (file_path : string) (c : ascii) :
  plain_label file_path -> special_char c = true ->
  existsb (Ascii.eqb c) (String.list_ascii_of_string (first_chars 3 file_path))
  = false.
Proof.
  unfold plain_label. intros Hp Hc.
  induction (String.list_ascii_of_string (first_chars 3 file_path))
    as [|a l IH]; [reflexivity|].
  cbn [existsb] in *. apply orb_false_iff in Hp. destruct Hp as [Ha Hl].
  rewrite (IH Hl), orb_false_r.
  destruct (Ascii.eqb c a) eqn:E; [|reflexivity].
  apply Ascii.eqb_eq in E. subst a. congruence.
Qed.

Lemma plt_suptitle_run (file_path : string) (h : list ndarray)
    (out : list (list frag)) (fig : list plt_call) :
  plain_label file_path ->
  plt_suptitle ("Pitch and Roll Time Series" ++ first_chars 3 file_path)
    (mk_world h out fig)
  = (Ok tt,
     mk_world h out
       (fig ++ [Suptitle ("Pitch and Roll Time Series"
                          ++ first_chars 3 file_path)])).
Proof.
  intros Hp. unfold plt_suptitle.
  rewrite (str_contains_char "$"), list_ascii_of_string_app, existsb_app.
  rewrite (plain_label_chars file_path "$" Hp eq_refl). reflexivity.
Qed.

Lemma plt_savefig_run (file_path : string) (h : list ndarray)
    (out : list (list frag)) (fig : list plt_call) :
  plain_label file_path ->
  plt_savefig (image_path file_path) (mk_world h out fig)
  = (Ok tt,
     mk_world h out
       (fig ++ [Savefig ("pitch_roll_time_series" ++ first_chars 3 file_path
                         ++ ".png")])).
Proof.
  intros Hp. unfold plt_savefig. rewrite image_path_first_chars.
  unfold nul.
  rewrite (str_contains_char "/"), (str_contains_char Ascii.zero).
  rewrite !list_ascii_of_string_app, !existsb_app.
  rewrite (plain_label_chars file_path "/" Hp eq_refl).
  rewrite (plain_label_chars file_path Ascii.zero Hp eq_refl).
  reflexivity.
Qed.

Ltac run_plot :=
  lazymatch goal with
  | |- bind _ _ _ = _ =>
      eapply bind_run; [run_plot|run_plot]
  | |- plt_plot _ _ _ _ _ = _ =>
      apply plt_plot_run;
      [apply list_lookup_middle; reflexivity
      |rewrite length_shifted, !length_map; reflexivity]
  | |- plt_savefig _ _ = _ => apply plt_savefig_run; assumption
  | |- plt_suptitle _ _ = _ => apply plt_suptitle_run; assumption
  | |- plt _ _ = _ => apply plt_run
  end.

Lemma plot_series_run (file_path : string) (recs : list SensorRecord)
    (h : list ndarray) (out : list (list frag)) (fig : list plt_call)
    (ts_arr : loc) :
  plain_label file_path ->
  recs <> [] -> h !! ts_arr = Some (Arr1 (map timestamp recs)) ->
  plot_series file_path ts_arr (map PFloat (map pitch recs))
    (map PFloat (map roll recs)) (mk_world h out fig)
  = (Ok tt,
     mk_world (h ++ [Arr1 (shifted (map timestamp recs))]) out
              (fig ++ expected_plt_log file_path recs)).
Proof.
  intros Hcwd Hne Hl.
  assert (Hts : map timestamp recs <> [])
    by (destruct recs; [contradiction|discriminate]).
  transitivity
    (Ok tt,
     mk_world (h ++ [Arr1 (shifted (map timestamp recs))]) out
              (foldl (fun acc c => (acc ++ [c])%list) fig
                     (expected_plt_log file_path recs))).
  - unfold plot_series, plot_panel, expected_plt_log. cbv zeta. cbn [foldl].
    rewrite path_label_first_chars.
    eapply bind_run; [apply plt_run|].
    eapply bind_run;
      [apply (adjust_timestamps_run (map timestamp recs)); assumption|].
    run_plot.
  - do 2 f_equal. unfold expected_plt_log. cbv zeta. cbn [foldl].
    rewrite <- !app_assoc. reflexivity.
Qed.

(** The whole function on clean input with at least one valid record, in
    any world, for a path with a plain label. *)
Lemma analyze_clean_run_anywhere (file_path : string) (data : list pyval)
    (h : list ndarray) (out : list (list frag)) (fig : list plt_call) :
  plain_label file_path ->
  Forall clean data -> valid_records data <> [] ->
  analyze_imu_data file_path data (mk_world h out fig)
  = (Ok (result_dict (expected_statistics (valid_records data))),
     mk_world (h ++ expected_heap (valid_records data))
              (out ++ expected_stdout (valid_records data))
              (fig ++ expected_plt_log file_path (valid_records data))).
Proof.
  intros Hcwd Hc Hne. set (recs := valid_records data) in *.
  assert (Ha : map accelerometer recs <> [])
    by (destruct recs; [contradiction|discriminate]).
  assert (Hg : map gyroscope recs <> [])
    by (destruct recs; [contradiction|discriminate]).
  unfold analyze_imu_data.
  eapply bind_run.
  { unfold lift. rewrite (extract_clean data Hc). fold recs. reflexivity. }
  unfold of_fields, record_fields, new_array2, new_array1.
  rewrite !map_map. cbn [f_accel f_gyro f_timestamp f_pitch f_roll
    accel_data gyro_data timestamps pitch_values roll_values].
  eapply bind_run.
  { eapply bind_run; [unfold lift|apply np_alloc_run].
    rewrite <- (map_map accelerometer (fun v => map PFloat (vec_row v))).
    rewrite (np_array2_rows _ Ha). reflexivity. }
  eapply bind_run.
  { eapply bind_run; [unfold lift|apply np_alloc_run].
    rewrite <- (map_map gyroscope (fun v => map PFloat (vec_row v))).
    rewrite (np_array2_rows _ Hg). reflexivity. }
  eapply bind_run.
  { eapply bind_run; [unfold lift|apply np_alloc_run].
    rewrite <- (map_map timestamp PFloat), np_array1_nums. reflexivity. }
  rewrite <- !app_assoc. cbn [app].
  rewrite length_app. cbn [length].
  eapply bind_run.
  { apply (compute_statistics_run recs); [assumption| |].
    - apply list_lookup_middle. reflexivity.
    - exact (lookup_app_plus h _ 1). }
  eapply bind_run; [apply print_report_run|].
  eapply bind_run.
  { rewrite <- (map_map pitch PFloat), <- (map_map roll PFloat).
    apply plot_series_run; [assumption|assumption|].
    rewrite <- app_assoc. cbn [app]. rewrite length_app. cbn [length].
    exact (lookup_app_plus h _ 2). }
  unfold ret, expected_heap. rewrite <- !app_assoc. reflexivity.
Qed.

(** The whole function on clean input with at least one valid record. *)
Lemma analyze_clean_run (file_path : string) (data : list pyval) :
  plain_label file_path ->
  Forall clean data -> valid_records data <> [] ->
  analyze_imu_data file_path data initial_world
  = (Ok (result_dict (expected_statistics (valid_records data))),
     expected_world file_path (valid_records data)).
Proof.
  intros Hcwd Hc Hne.
  exact (analyze_clean_run_anywhere file_path data [] [] [] Hcwd Hc Hne).
Qed.

(** ** The filtering pass: theorems *)

Lemma extract_from_ok_well_formed (data : list pyval) :
  forall acc ex, extract_from acc data = Ok ex -> Forall well_formed_entry data.
Proof.
  induction data as [|e data IH]; intros acc ex H; [constructor|].
  simpl in H. unfold loop_body, append_entry in H.
  constructor.
  - unfold well_formed_entry.
    destruct (has_required_keys e) as [[|]|x]; simpl in H;
      [|exact I|discriminate].
    destruct (entry_fields e) as [f|x]; [eauto|discriminate].
  - destruct (loop_body acc e) as [acc'|x] eqn:Hb;
      unfold loop_body, append_entry in Hb; rewrite Hb in H;
      [|discriminate].
    exact (IH _ _ H).
Qed.

Lemma well_formed_dict (m : gmap string pyval) :
  well_formed_entry (PDict m) <->
  (contains_all_keys m -> exists f, entry_fields (PDict m) = Ok f).
Proof.
  pose proof (included_dict m) as Hi. unfold included in Hi.
  unfold well_formed_entry.
  destruct (has_required_keys (PDict m)) as [[|]|x] eqn:Hk.
  - split; [auto|]. intros H. apply H, Hi. reflexivity.
  - split; [|auto]. intros _ Hc. apply Hi in Hc. discriminate.
  - rewrite has_required_keys_dict in Hk. discriminate.
Qed.

Lemma extract_from_raises (data : list pyval) (acc : extracted) :
  ~ Forall well_formed_entry data -> exists x, extract_from acc data = Raise x.
Proof.
  intros Hn. destruct (extract_from acc data) as [ex|x] eqn:H; [|eauto].
  exfalso. apply Hn. exact (extract_from_ok_well_formed _ _ _ H).
Qed.

Lemma analyze_extract_raises (file_path : string) (data : list pyval)
    (x : exn) (w : world) :
  extract data = Raise x -> analyze_imu_data file_path data w = (Raise x, w).
Proof.
  intros H. unfold analyze_imu_data. apply bind_raise.
  unfold lift. rewrite H. reflexivity.
Qed.

Lemma py_in_raises (key : string) (entry : pyval) (x : exn) :
  py_in key entry = Raise x -> x = TypeError.
Proof. destruct entry; simpl; congruence. Qed.

Lemma has_required_keys_raises (entry : pyval) (x : exn) :
  has_required_keys entry = Raise x -> x = TypeError.
Proof.
  unfold has_required_keys.
  destruct (py_in "accelerometer" entry) as [[|]|y] eqn:Ha; simpl;
    [|discriminate|intros [= <-]; exact (py_in_raises _ _ _ Ha)].
  destruct (py_in "gyroscope" entry) as [[|]|y] eqn:Hg; simpl;
    [|discriminate|intros [= <-]; exact (py_in_raises _ _ _ Hg)].
  apply py_in_raises.
Qed.

Lemma py_getitem_raises (v : pyval) (key : string) (x : exn) :
  py_getitem v key = Raise x -> x = TypeError \/ x = KeyError key.
Proof.
  destruct v as [| | | | | |m]; simpl; try (intros [= <-]; left; reflexivity).
  destruct (m !! key); [discriminate|]. intros [= <-]. right. reflexivity.
Qed.

Lemma py_getitem2_raises (entry : pyval) (k1 k2 : string) (x : exn) :
  py_in k1 entry = Ok true ->
  py_getitem2 entry k1 k2 = Raise x -> x = TypeError \/ x = KeyError k2.
Proof.
  intros Hin. unfold py_getitem2.
  destruct (py_getitem entry k1) as [sub|y] eqn:H1; simpl.
  - apply py_getitem_raises.
  - intros [= <-]. destruct entry as [| | | | | |m]; simpl in *;
      try (injection H1 as <-; left; reflexivity).
    injection Hin as Hin. apply bool_decide_eq_true in Hin as [v Hv].
    rewrite Hv in H1. discriminate.
Qed.

Lemma has_required_keys_true (entry : pyval) :
  has_required_keys entry = Ok true ->
  py_in "accelerometer" entry = Ok true /\
  py_in "gyroscope" entry = Ok true /\
  py_in "orientation" entry = Ok true.
Proof.
  unfold has_required_keys.
  destruct (py_in "accelerometer" entry) as [[|]|y]; simpl; try discriminate.
  destruct (py_in "gyroscope" entry) as [[|]|y]; simpl; try discriminate.
  auto.
Qed.

Lemma entry_fields_raises (entry : pyval) (x : exn) :
  has_required_keys entry = Ok true -> entry_fields entry = Raise x ->
  x = TypeError \/ exists k, In k unguarded_keys /\ x = KeyError k.
Proof.
  intros Hk. apply has_required_keys_true in Hk as (Ha & Hg & Ho).
  assert (K : forall k, In k unguarded_keys ->
                x = TypeError \/ x = KeyError k ->
                x = TypeError \/ exists k, In k unguarded_keys /\ x = KeyError k).
  { intros k Hin [E|E]; [left; exact E|right; eauto]. }
  unfold entry_fields.
  repeat match goal with
  | |- obind (py_getitem2 entry ?k1 ?k2) _ = Raise x -> _ =>
      let E := fresh "E" in
      destruct (py_getitem2 entry k1 k2) as [?|?] eqn:E; simpl;
      [|intros [= <-]; apply (K k2);
        [unfold unguarded_keys; simpl; tauto
        |eapply py_getitem2_raises; [|exact E]; assumption]]
  | |- obind (py_getitem entry ?k) _ = Raise x -> _ =>
      let E := fresh "E" in
      destruct (py_getitem entry k) as [?|?] eqn:E; simpl;
      [|intros [= <-]; apply (K k);
        [unfold unguarded_keys; simpl; tauto
        |exact (py_getitem_raises _ _ _ E)]]
  end.
  discriminate.
Qed.

Lemma extract_from_raises_at (data : list pyval) :
  forall acc x,
    extract_from acc data = Raise x ->
    exists entry acc', In entry data /\ loop_body acc' entry = Raise x.
Proof.
  induction data as [|e data IH]; intros acc x H; simpl in H; [discriminate|].
  destruct (loop_body acc e) as [acc'|y] eqn:Hb; simpl in H.
  - destruct (IH _ _ H) as (entry & acc'' & Hin & Hr).
    exists entry, acc''. split; [right; exact Hin|exact Hr].
  - injection H as <-. exists e, acc. split; [left; reflexivity|exact Hb].
Qed.


(** What the nine subscripts read from a JSON object, spelled out. *)
Lemma entry_fields_contributes (m : gmap string pyval) (f : fields) :
  entry_fields (PDict m) = Ok f <-> contributes m f.
Proof.
  unfold entry_fields, py_getitem2, py_getitem, contributes. split.
  - intros H.
    destruct (m !! "accelerometer") as [[| | | | | |a]|]; try discriminate H.
    cbn [obind] in H.
    destruct (a !! "x") as [ax|] eqn:Hax; [|discriminate H].
    destruct (a !! "y") as [ay|] eqn:Hay; [|discriminate H].
    destruct (a !! "z") as [az|] eqn:Haz; [|discriminate H].
    cbn [obind] in H.
    destruct (m !! "gyroscope") as [[| | | | | |g]|]; try discriminate H.
    cbn [obind] in H.
    destruct (g !! "x") as [gx|] eqn:Hgx; [|discriminate H].
    destruct (g !! "y") as [gy|] eqn:Hgy; [|discriminate H].
    destruct (g !! "z") as [gz|] eqn:Hgz; [|discriminate H].
    cbn [obind] in H.
    destruct (m !! "timestamp") as [t|] eqn:Ht; [|discriminate H].
    cbn [obind] in H.
    destruct (m !! "orientation") as [[| | | | | |o]|]; try discriminate H.
    cbn [obind] in H.
    destruct (o !! "pitch") as [p|] eqn:Hp; [|discriminate H].
    destruct (o !! "roll") as [r|] eqn:Hr; [|discriminate H].
    cbn [obind] in H. injection H as <-.
    exists a, g, o, ax, ay, az, gx, gy, gz, t, p, r.
    repeat (split; [first [reflexivity|assumption]|]). reflexivity.
  - intros (a & g & o & ax & ay & az & gx & gy & gz & t & p & r & Ha & Hax
            & Hay & Haz & Hg & Hgx & Hgy & Hgz & Ht & Ho & Hp & Hr & ->).
    rewrite Ha, Hg, Ht, Ho. cbn [obind].
    rewrite Hax, Hay, Haz, Hgx, Hgy, Hgz, Hp, Hr. reflexivity.
Qed.

Lemma has_inner_fields_run (m : gmap string pyval) :
  has_inner_fields m <-> exists f, entry_fields (PDict m) = Ok f.
Proof.
  unfold has_inner_fields. split; intros [f H]; exists f;
    apply entry_fields_contributes; exact H.
Qed.

(** Only a JSON object passes the guard and the nine subscripts. *)
Lemma entry_fields_dict (e : pyval) (f : fields) :
  entry_fields e = Ok f -> exists m, e = PDict m.
Proof.
  destruct e as [| | | | | |m]; try discriminate. eauto.
Qed.

(** A JSON object on which the loop body does not raise. *)
Lemma well_formed_object (m : gmap string pyval) :
  well_formed_entry (PDict m) <-> (contains_all_keys m -> has_inner_fields m).
Proof. rewrite well_formed_dict, has_inner_fields_run. reflexivity. Qed.

Lemma well_formed_objects (data : list pyval) :
  Forall (fun e => exists m, e = PDict m /\
                     (contains_all_keys m -> has_inner_fields m)) data ->
  Forall well_formed_entry data.
Proof.
  intros H. eapply List.Forall_impl; [|exact H].
  intros e (m & -> & He). apply well_formed_object, He.
Qed.

(** The contributions of the kept entries, spelled out. *)
Lemma kept_entries_contribute (l : list pyval) (fs : list fields) :
  Forall (fun e => included e = true) l ->
  Forall2 (fun e f => entry_fields e = Ok f) l fs ->
  Forall2 (fun e f => exists m, e = PDict m /\ contains_all_keys m /\
                        contributes m f) l fs.
Proof.
  intros Hi HF. induction HF as [|e f l fs He _ IH]; [constructor|].
  apply Forall_cons_1 in Hi as [Hie Hil].
  constructor; [|exact (IH Hil)].
  destruct (entry_fields_dict e f He) as [m ->]. exists m.
  split; [reflexivity|]. split; [apply included_dict, Hie|].
  apply entry_fields_contributes, He.
Qed.

Lemma filter_included_all (data : list pyval) :
  Forall (fun e => included e = true) (List.filter included data).
Proof.
  apply List.Forall_forall. intros e He. apply filter_In in He. tauto.
Qed.

(** A sufficient test, by evaluation, for the hypothesis on a record. *)
Lemma object_is_passable (m : gmap string pyval) :
  (included (PDict m) = true -> exists f, entry_fields (PDict m) = Ok f) ->
  exists m', PDict m = PDict m' /\
             (contains_all_keys m' -> has_inner_fields m').
Proof.
  intros H. exists m. split; [reflexivity|]. intros Hk.
  apply has_inner_fields_run, H, included_dict, Hk.
Qed.

Lemma sample_data_passable :
  Forall (fun e => exists m, e = PDict m /\
                     (contains_all_keys m -> has_inner_fields m)) sample_data.
Proof.
  unfold sample_data.
  constructor; [apply object_is_passable; intros _; eexists; reflexivity|].
  constructor; [apply object_is_passable; intros H; discriminate H|].
  constructor; [apply object_is_passable; intros _; eexists; reflexivity|].
  constructor.
Qed.

(** C3, as the code has it. On every sequence of JSON objects in which
    each object with the three keys [accelerometer], [gyroscope] and
    [orientation] also holds the inner fields the loop reads, the
    filtering pass returns; it goes through the records once, in order,
    and keeps a record exactly when the three keys are present; each kept
    record contributes [x, y, z] of its accelerometer, [x, y, z] of its
    gyroscope, its timestamp, and pitch and roll of its orientation to the
    five lists, which are parallel and in the original order; kept and
    excluded records add up to the input. *)
Theorem filtering_pass_keeps_records_with_three_keys (data : list pyval) :
  Forall (fun e => exists m, e = PDict m /\
                     (contains_all_keys m -> has_inner_fields m)) data ->
  exists (ex : extracted) (fs : list fields),
    extract data = Ok ex /\
    Forall2 (fun e f => exists m, e = PDict m /\ contains_all_keys m /\
                          contributes m f)
            (List.filter included data) fs /\
    accel_data ex = map f_accel fs /\
    gyro_data ex = map f_gyro fs /\
    timestamps ex = map f_timestamp fs /\
    pitch_values ex = map f_pitch fs /\
    roll_values ex = map f_roll fs /\
    (length (List.filter included data)
     + length (List.filter (fun e => negb (included e)) data)
     = length data)%nat /\
    (forall m, In (PDict m) data ->
       (In (PDict m) (List.filter included data) <-> contains_all_keys m)).
Proof.
  intros Hd. pose proof (well_formed_objects data Hd) as Hwf.
  destruct (extract_from_total data Hwf no_data) as [ex Hex].
  destruct (extract_from_ok data [] ex Hex) as (fs & HF & ->).
  exists (of_fields fs), fs. simpl.
  split; [exact Hex|].
  split; [exact (kept_entries_contribute _ _ (filter_included_all data) HF)|].
  do 5 (split; [reflexivity|]).
  split; [apply filter_partition_length|].
  intros m Hin. rewrite filter_In, included_dict. tauto.
Qed.

Lemma filtering_pass_keeps_records_with_three_keys_witness :
  exists (ex : extracted) (fs : list fields),
    extract sample_data = Ok ex /\
    Forall2 (fun e f => exists m, e = PDict m /\ contains_all_keys m /\
                          contributes m f)
            (List.filter included sample_data) fs /\
    accel_data ex = map f_accel fs /\
    gyro_data ex = map f_gyro fs /\
    timestamps ex = map f_timestamp fs /\
    pitch_values ex = map f_pitch fs /\
    roll_values ex = map f_roll fs /\
    (length (List.filter included sample_data)
     + length (List.filter (fun e => negb (included e)) sample_data)
     = length sample_data)%nat /\
    (forall m, In (PDict m) sample_data ->
       (In (PDict m) (List.filter included sample_data) <-> contains_all_keys m)).
Proof.
  exact (filtering_pass_keeps_records_with_three_keys sample_data
           sample_data_passable).
Defined.

(** C3, as the claim states it, fails: a record with the three keys whose
    accelerometer has no z is included by the guard and contributes
    nothing, the pass stops at it with [KeyError] and builds no list. *)
Lemma included_record_without_z_contributes_nothing :
  included record_without_accel_z = true /\
  extract [record_without_accel_z] = Raise (KeyError "z") /\
  (forall ex, extract [record_without_accel_z] <> Ok ex).
Proof.
  split; [reflexivity|]. split; [reflexivity|]. intros ex H. discriminate H.
Qed.

(** With the three sub-objects being JSON objects, the subscripts of
    lines 24-38 raise nothing but [KeyError], on an inner key. *)
Lemma entry_fields_raises_key_error (m : gmap string pyval) (x : exn) :
  sub_objects_are_dicts m -> entry_fields (PDict m) = Raise x ->
  exists k, In k unguarded_keys /\ x = KeyError k.
Proof.
  intros ((a & Ha) & (g & Hg) & (o & Ho)).
  assert (K : forall k, In k unguarded_keys -> Raise (A := fields) (KeyError k) = Raise x ->
                exists k, In k unguarded_keys /\ x = KeyError k).
  { intros k Hin [= <-]. eauto. }
  unfold entry_fields, py_getitem2, py_getitem.
  rewrite Ha, Hg, Ho. cbn [obind].
  destruct (a !! "x"); cbn [obind];
    [|apply K; unfold unguarded_keys; simpl; tauto].
  destruct (a !! "y"); cbn [obind];
    [|apply K; unfold unguarded_keys; simpl; tauto].
  destruct (a !! "z"); cbn [obind];
    [|apply K; unfold unguarded_keys; simpl; tauto].
  destruct (g !! "x"); cbn [obind];
    [|apply K; unfold unguarded_keys; simpl; tauto].
  destruct (g !! "y"); cbn [obind];
    [|apply K; unfold unguarded_keys; simpl; tauto].
  destruct (g !! "z"); cbn [obind];
    [|apply K; unfold unguarded_keys; simpl; tauto].
  destruct (m !! "timestamp"); cbn [obind];
    [|apply K; unfold unguarded_keys; simpl; tauto].
  destruct (o !! "pitch"); cbn [obind];
    [|apply K; unfold unguarded_keys; simpl; tauto].
  destruct (o !! "roll"); cbn [obind];
    [|apply K; unfold unguarded_keys; simpl; tauto].
  discriminate.
Qed.

(** The exception of a pass over JSON objects comes from the subscripts
    of a record with the three keys. *)
Lemma extract_objects_raises (data : list pyval) (x : exn) :
  Forall (fun e => exists m, e = PDict m) data ->
  extract data = Raise x ->
  exists m, In (PDict m) data /\ contains_all_keys m /\
            entry_fields (PDict m) = Raise x.
Proof.
  intros Hd H. apply extract_from_raises_at in H as (e & acc & Hin & Hb).
  rewrite List.Forall_forall in Hd. destruct (Hd e Hin) as [m ->].
  exists m. split; [exact Hin|].
  unfold loop_body, append_entry in Hb.
  pose proof (included_dict m) as Hi. unfold included in Hi.
  destruct (has_required_keys (PDict m)) as [[|]|y] eqn:Hk; simpl in Hb.
  - split; [apply Hi; reflexivity|].
    destruct (entry_fields (PDict m)) as [f|y]; simpl in Hb;
      [discriminate|congruence].
  - discriminate.
  - rewrite has_required_keys_dict in Hk. discriminate.
Qed.

(** C4, as the code has it. A JSON object that lacks one of the three
    keys [accelerometer], [gyroscope], [orientation] never causes an error:
    it is skipped and the five lists stay as they are. A JSON object that
    has the three keys is not skipped: on a sequence of JSON objects the
    pass completes exactly when every object with the three keys also
    holds the inner fields the loop reads: x, y, z of the accelerometer
    and of the gyroscope, [timestamp], and [pitch] and [roll] of the
    orientation. Otherwise the pass raises: [KeyError] on one of these
    inner keys, or [TypeError] when a sub-object is not a JSON object,
    and [KeyError] for sure when the three sub-objects of every such
    object are JSON objects; the analysis then stops with that exception,
    in whatever state it was called, nothing printed, nothing plotted. *)
Theorem missing_keys_are_skipped_missing_inner_fields_raise
    (file_path : string) (data : list pyval) :
  Forall (fun e => exists m, e = PDict m) data ->
  (forall m acc, In (PDict m) data -> ~ contains_all_keys m ->
     loop_body acc (PDict m) = Ok acc) /\
  ((exists ex, extract data = Ok ex) <->
   (forall m, In (PDict m) data -> contains_all_keys m -> has_inner_fields m)) /\
  ((exists m, In (PDict m) data /\ contains_all_keys m /\
              ~ has_inner_fields m) ->
   exists x,
     extract data = Raise x /\
     (x = TypeError \/ exists k, In k unguarded_keys /\ x = KeyError k) /\
     ((forall m, In (PDict m) data -> contains_all_keys m ->
         sub_objects_are_dicts m) ->
      exists k, In k unguarded_keys /\ x = KeyError k) /\
     (forall w, analyze_imu_data file_path data w = (Raise x, w))).
Proof.
  intros Hd.
  assert (Hwf : Forall well_formed_entry data <->
                (forall m, In (PDict m) data -> contains_all_keys m ->
                   has_inner_fields m)).
  { rewrite List.Forall_forall. split.
    - intros H m Hin. apply well_formed_object, H, Hin.
    - intros H e Hin. rewrite List.Forall_forall in Hd.
      destruct (Hd e Hin) as [m ->]. apply well_formed_object, H, Hin. }
  split; [|split].
  - intros m acc _ Hn. apply loop_body_skip.
    pose proof (included_dict m) as Hi. unfold included in Hi.
    rewrite has_required_keys_dict in *.
    destruct (_ && _); [|reflexivity].
    exfalso. apply Hn, Hi. reflexivity.
  - rewrite <- Hwf. split.
    + intros [ex Hex]. exact (extract_from_ok_well_formed _ _ _ Hex).
    + intros H. exact (extract_from_total data H no_data).
  - intros (m & Hin & Hk & Hf).
    destruct (extract_from_raises data no_data) as [x Hx].
    { rewrite Hwf. intros H. exact (Hf (H m Hin Hk)). }
    fold (extract data) in Hx.
    destruct (extract_objects_raises data x Hd Hx) as (m' & Hin' & Hk' & Hr).
    exists x. split; [exact Hx|]. split; [|split].
    + apply (entry_fields_raises (PDict m')); [|exact Hr].
      pose proof (included_dict m') as Hi. unfold included in Hi.
      destruct (has_required_keys (PDict m')) as [[|]|y] eqn:E.
      * reflexivity.
      * apply Hi in Hk'. discriminate.
      * rewrite has_required_keys_dict in E. discriminate.
    + intros Hs. exact (entry_fields_raises_key_error m' x (Hs m' Hin' Hk') Hr).
    + intros w. apply analyze_extract_raises. exact Hx.
Qed.

Lemma missing_keys_are_skipped_missing_inner_fields_raise_witness :
  exists x,
    extract [record_without_orientation; record_without_inner_fields]
    = Raise x /\
    (exists k, In k unguarded_keys /\ x = KeyError k) /\
    analyze_imu_data "1.json"
      [record_without_orientation; record_without_inner_fields] initial_world
    = (Raise x, initial_world).
Proof.
  assert (Hd : Forall (fun e => exists m, e = PDict m)
                 [record_without_orientation; record_without_inner_fields]).
  { constructor; [eexists; reflexivity|].
    constructor; [eexists; reflexivity|]. constructor. }
  destruct (missing_keys_are_skipped_missing_inner_fields_raise "1.json"
              [record_without_orientation; record_without_inner_fields] Hd)
    as (_ & _ & H).
  destruct H as (x & Hx & _ & Hkey & Hrun).
  - eexists. split; [right; left; reflexivity|].
    split.
    + apply included_dict. reflexivity.
    + intros Hf. apply has_inner_fields_run in Hf as [f Hf]. discriminate Hf.
  - exists x. split; [exact Hx|]. split; [|exact (Hrun initial_world)].
    apply Hkey. intros m [E|[E|[]]] Hk.
    + injection E as <-. exfalso. apply included_dict in Hk. discriminate Hk.
    + injection E as <-.
      split; [|split]; eexists; reflexivity.
Defined.

(** C4, as the claim states it, fails: a record that has the three
    sub-objects but not their inner fields stops the pass, and the whole
    analysis, with [KeyError]; so does a record without [timestamp]. *)
Lemma record_without_inner_fields_raises :
  extract [record_without_inner_fields] = Raise (KeyError "x") /\
  extract [record_without_timestamp] = Raise (KeyError "timestamp") /\
  analyze_imu_data "1.json" [record_without_inner_fields] initial_world
  = (Raise (KeyError "x"), initial_world).
Proof. repeat split; reflexivity. Qed.

(** C6. After a filtering pass that completed, the five derived sequences
    have the same length, the number of records kept: the timestamp array,
    the accelerometer array and the gyroscope array as numpy builds them,
    the pitch list and the roll list. *)
Theorem derived_sequences_have_equal_length (data : list pyval)
    (ex : extracted) (a g t : ndarray) :
  extract data = Ok ex ->
  np_array2 (accel_data ex) = Ok a ->
  np_array2 (gyro_data ex) = Ok g ->
  np_array1 (timestamps ex) = Ok t ->
  let n := length (List.filter included data) in
  length (timestamps ex) = n /\ length (accel_data ex) = n /\
  length (gyro_data ex) = n /\ length (pitch_values ex) = n /\
  length (roll_values ex) = n /\
  np_len t = Ok n /\ np_len a = Ok n /\ np_len g = Ok n.
Proof.
  intros Hex Ha Hg Ht n.
  destruct (extract_from_ok data [] ex Hex) as (fs & HF & ->).
  apply Forall2_length in HF. fold n in HF.
  simpl in *. rewrite !length_map, <- HF.
  assert (H1 : forall l b, np_array1 l = Ok b -> np_len b = Ok (length l)).
  { intros l b. unfold np_array1.
    destruct (mapM as_number l) as [ns|] eqn:Hm; [|discriminate].
    apply length_mapM in Hm.
    destruct (forallb fits ns); [|discriminate].
    destruct ns as [|k ns'].
    - intros [= <-]. simpl in *. congruence.
    - destruct (mapM as_int (k :: ns')) as [zs|] eqn:Hz; intros [= <-].
      + apply length_mapM in Hz. simpl in *. congruence.
      + simpl in *. rewrite length_map. congruence. }
  assert (H2 : forall l b, np_array2 l = Ok b -> np_len b = Ok (length l)).
  { intros l b. unfold np_array2.
    destruct l as [|r l]; [intros [= <-]; reflexivity|].
    destruct (mapM (mapM as_number) (r :: l)) as [rows|] eqn:Hm;
      [|discriminate].
    apply length_mapM in Hm.
    destruct (_ && _); [|discriminate].
    destruct (concat rows) as [|k ns'].
    - intros [= <-]. cbn [np_len]. rewrite length_map. congruence.
    - destruct (mapM (mapM as_int) rows) as [zrows|] eqn:Hz; intros [= <-].
      + apply length_mapM in Hz. cbn [np_len]. congruence.
      + cbn [np_len]. rewrite length_map. congruence. }
  apply H1 in Ht. apply H2 in Ha, Hg. rewrite length_map in Ht, Ha, Hg.
  rewrite <- HF in Ht, Ha, Hg. repeat split; assumption.
Qed.

Lemma derived_sequences_have_equal_length_witness :
  exists ex a g t,
    extract sample_data = Ok ex /\
    length (timestamps ex) = 2%nat /\ length (accel_data ex) = 2%nat /\
    length (gyro_data ex) = 2%nat /\ length (pitch_values ex) = 2%nat /\
    length (roll_values ex) = 2%nat /\
    np_len t = Ok 2%nat /\ np_len a = Ok 2%nat /\ np_len g = Ok 2%nat.
Proof.
  eexists _, _, _, _. split; [reflexivity|].
  eapply (derived_sequences_have_equal_length sample_data);
    reflexivity.
Defined.

(** ** Gravity adjustment *)




(** ** The time axis *)




(** ** No valid record *)

Lemma extract_all_skipped (data : list pyval) :
  Forall (fun e => has_required_keys e = Ok false) data ->
  extract data = Ok no_data.
Proof.
  intros H. unfold extract. induction H as [|e data He _ IH]; [reflexivity|].
  simpl. rewrite (loop_body_skip _ _ He). exact IH.
Qed.

(** C9. When the guard rejects every record of the input (the empty
    input included), [analyze_imu_data] raises [IndexError] at line 47,
    in the statistics phase: the three arrays and the copy exist, nothing
    was printed and nothing was plotted; no result is returned. *)
Theorem no_valid_record_raises_index_error (file_path : string)
    (data : list pyval) :
  Forall (fun e => has_required_keys e = Ok false) data ->
  analyze_imu_data file_path data initial_world
  = (Raise IndexError, mk_world [Arr1 []; Arr1 []; Arr1 []; Arr1 []] [] []).
Proof.
  intros H. unfold analyze_imu_data.
  eapply bind_run; [unfold lift; rewrite (extract_all_skipped data H); reflexivity|].
  reflexivity.
Qed.

Lemma no_valid_record_raises_index_error_witness :
  Forall (fun e => has_required_keys e = Ok false)
         [record_without_orientation; PStr "accelerometer"] /\
  analyze_imu_data "1.json" [record_without_orientation; PStr "accelerometer"]
    initial_world
  = (Raise IndexError, mk_world [Arr1 []; Arr1 []; Arr1 []; Arr1 []] [] []).
Proof.
  assert (H : Forall (fun e => has_required_keys e = Ok false)
                [record_without_orientation; PStr "accelerometer"]).
  { constructor; [reflexivity|].
    constructor; [reflexivity|]. constructor. }
  split; [exact H|].
  exact (no_valid_record_raises_index_error "1.json" _ H).
Defined.

(** ** Noise and bias *)

Lemma result_dict_lookup (st : statistics) :
  result_dict st !! "accel_noise" = Some (accel_noise st) /\
  result_dict st !! "accel_bias" = Some (accel_bias st) /\
  result_dict st !! "gyro_noise" = Some (gyro_noise st) /\
  result_dict st !! "gyro_bias" = Some (gyro_bias st).
Proof.
  unfold result_dict. split; [|split; [|split]].
  - apply lookup_insert_eq.
  - rewrite lookup_insert_ne by discriminate. apply lookup_insert_eq.
  - rewrite !lookup_insert_ne by discriminate. apply lookup_insert_eq.
  - rewrite !lookup_insert_ne by discriminate. apply lookup_insert_eq.
Qed.




Lemma sample_data_clean : Forall clean sample_data.
Proof.
  unfold sample_data.
  constructor; [right; eexists; reflexivity|].
  constructor; [left; reflexivity|].
  constructor; [right; eexists; reflexivity|].
  constructor.
Qed.

Lemma sample_data_valid_records :
  valid_records sample_data
  = [mk_record 10 (mk_vec3 1 0 0) (mk_vec3 0 0 0) 0 0;
     mk_record 12 (mk_vec3 0 3 0) (mk_vec3 0 0 0) 0 0].
Proof. reflexivity. Qed.

Lemma sample_data_has_valid_records : valid_records sample_data <> [].
Proof. rewrite sample_data_valid_records. discriminate. Qed.



Lemma plain_label_1_json : plain_label "1.json".
Proof. reflexivity. Qed.







(** ** Order of the records *)









(** ** The image path *)

Lemma keeps_ret {A} (a : A) : keeps_plt_log (ret a).
Proof. intros w. reflexivity. Qed.

Lemma keeps_raise {A} (e : exn) : keeps_plt_log (@raise A e).
Proof. intros w. reflexivity. Qed.

Lemma keeps_lift {A} (o : outcome A) : keeps_plt_log (lift o).
Proof. intros w. reflexivity. Qed.

Lemma keeps_np_alloc (a : ndarray) : keeps_plt_log (np_alloc a).
Proof. intros w. reflexivity. Qed.

Lemma keeps_np_read (l : loc) : keeps_plt_log (np_read l).
Proof. intros w. reflexivity. Qed.

Lemma keeps_np_write (l : loc) (a : ndarray) : keeps_plt_log (np_write l a).
Proof. intros w. reflexivity. Qed.

Lemma keeps_print (l : list frag) : keeps_plt_log (print l).
Proof. intros w. reflexivity. Qed.

Lemma keeps_bind {A B} (m : M A) (k : A -> M B) :
  keeps_plt_log m -> (forall a, keeps_plt_log (k a)) -> keeps_plt_log (bind m k).
Proof.
  intros Hm Hk w. unfold bind. specialize (Hm w).
  destruct (m w) as [[a|e] w1]; simpl in *; [|exact Hm].
  rewrite (Hk a w1). exact Hm.
Qed.

Create HintDb frame.

#[local] Hint Resolve keeps_ret keeps_raise keeps_lift keeps_np_alloc
  keeps_np_read keeps_np_write keeps_print : frame.

#[local] Hint Extern 2 (keeps_plt_log (bind _ _)) =>
  apply keeps_bind; [|intros ?] : frame.

Lemma keeps_new_array2 (l : list (list pyval)) : keeps_plt_log (new_array2 l).
Proof. unfold new_array2. auto with frame. Qed.

Lemma keeps_new_array1 (l : list pyval) : keeps_plt_log (new_array1 l).
Proof. unfold new_array1. auto with frame. Qed.

Lemma keeps_compute_statistics (a g : loc) :
  keeps_plt_log (compute_statistics a g).
Proof.
  unfold compute_statistics, gravity_adjust, np_copy, np_col_iadd,
    vector_lengths, mean_vector.
  auto 20 with frame.
Qed.

Lemma keeps_print_report (st : statistics) : keeps_plt_log (print_report st).
Proof.
  unfold print_report, print_noise, print_bias, print_bias_length.
  auto 30 with frame.
Qed.

Lemma keeps_adjust_timestamps (l : loc) : keeps_plt_log (adjust_timestamps l).
Proof.
  unfold adjust_timestamps.
  apply keeps_bind; [auto with frame|intros ts].
  apply keeps_bind; [auto with frame|intros n].
  destruct (Nat.ltb 0 n); auto 10 with frame.
Qed.

Lemma keeps_run {A} (m : M A) (w w' : world) (o : outcome A) :
  keeps_plt_log m -> m w = (o, w') -> plt_log w' = plt_log w.
Proof. intros Hm H. specialize (Hm w). rewrite H in Hm. exact Hm. Qed.

Lemma bind_ok_inv {A B} (m : M A) (k : A -> M B) (w w2 : world) (b : B) :
  bind m k w = (Ok b, w2) ->
  exists a w1, m w = (Ok a, w1) /\ k a w1 = (Ok b, w2).
Proof.
  unfold bind. destruct (m w) as [[a|e] w1]; [eauto|discriminate].
Qed.

Lemma plt_inv (c : plt_call) (w w' : world) (u : unit) :
  plt c w = (Ok u, w') -> plt_log w' = (plt_log w ++ [c])%list.
Proof. unfold plt. intros [= _ <-]. reflexivity. Qed.

Lemma plt_plot_inv (x : loc) (y : list pyval) (fmt label : string)
    (w w' : world) (u : unit) :
  plt_plot x y fmt label w = (Ok u, w') ->
  exists xs, plt_log w' = (plt_log w ++ [Plot xs y fmt label])%list.
Proof.
  unfold plt_plot, bind, np_read.
  destruct (forallb _ y); [|discriminate].
  destruct (np_float (heap w !!! x)) as [r|xs|rows|z|zs|zrows];
    try discriminate.
  destruct (Nat.eqb (length xs) (length y)); [|discriminate].
  intros H. exists xs. exact (plt_inv _ _ _ _ H).
Qed.

Lemma plt_suptitle_inv (s : string) (w w' : world) (u : unit) :
  plt_suptitle s w = (Ok u, w') ->
  plt_log w' = (plt_log w ++ [Suptitle s])%list.
Proof.
  unfold plt_suptitle. destruct (str_contains "$" s); [discriminate|].
  apply plt_inv.
Qed.

Lemma plt_savefig_inv (path : string) (w w' : world) (u : unit) :
  plt_savefig path w = (Ok u, w') ->
  plt_log w' = (plt_log w ++ [Savefig path])%list.
Proof.
  unfold plt_savefig. destruct (_ || _); [discriminate|].
  apply plt_inv.
Qed.

Ltac invert_run :=
  repeat match goal with
  | H : bind _ _ _ = (Ok _, _) |- _ =>
      apply bind_ok_inv in H; destruct H as (? & ? & ? & ?)
  | H : plot_panel _ _ _ _ _ _ _ _ = (Ok _, _) |- _ => unfold plot_panel in H
  | H : plt _ _ = (Ok _, _) |- _ => apply plt_inv in H
  | H : plt_suptitle _ _ = (Ok _, _) |- _ => apply plt_suptitle_inv in H
  | H : plt_savefig _ _ = (Ok _, _) |- _ => apply plt_savefig_inv in H
  | H : plt_plot _ _ _ _ _ = (Ok _, _) |- _ =>
      apply plt_plot_inv in H; destruct H as (? & ?)
  | H : adjust_timestamps _ _ = (Ok _, _) |- _ =>
      apply (keeps_run _ _ _ _ (keeps_adjust_timestamps _)) in H
  | H : lift _ _ = (Ok _, _) |- _ =>
      apply (keeps_run _ _ _ _ (keeps_lift _)) in H
  | H : new_array2 _ _ = (Ok _, _) |- _ =>
      apply (keeps_run _ _ _ _ (keeps_new_array2 _)) in H
  | H : new_array1 _ _ = (Ok _, _) |- _ =>
      apply (keeps_run _ _ _ _ (keeps_new_array1 _)) in H
  | H : compute_statistics _ _ _ = (Ok _, _) |- _ =>
      apply (keeps_run _ _ _ _ (keeps_compute_statistics _ _)) in H
  | H : print_report _ _ = (Ok _, _) |- _ =>
      apply (keeps_run _ _ _ _ (keeps_print_report _)) in H
  | H : ret _ _ = (Ok _, _) |- _ =>
      apply (keeps_run _ _ _ _ (keeps_ret _)) in H
  end.

Lemma analyze_saved_images (file_path : string) (data : list pyval)
    (res : gmap string ndarray) (w : world) :
  analyze_imu_data file_path data initial_world = (Ok res, w) ->
  saved_images w = [image_path file_path].
Proof.
  unfold analyze_imu_data, plot_series. intros H. invert_run.
  unfold saved_images.
  repeat match goal with
  | H : plt_log _ = _ |- _ => rewrite H; clear H
  end.
  reflexivity.
Qed.

(** C8. For every input path, the path of the image is the prefix
    [pitch_roll_time_series], then the first three characters of the input
    path (all of it when it is shorter), then [.png]; every run of
    [analyze_imu_data] that returns has saved exactly one image, at this
    path. *)
Theorem image_path_is_prefix_label_png (file_path : string) :
  image_path file_path
  = "pitch_roll_time_series" ++ first_chars 3 file_path ++ ".png" /\
  (forall (data : list pyval) (res : gmap string ndarray) (w : world),
     analyze_imu_data file_path data initial_world = (Ok res, w) ->
     saved_images w = [image_path file_path]).
Proof.
  split; [apply image_path_first_chars|].
  intros data res w. apply analyze_saved_images.
Qed.

Lemma image_path_is_prefix_label_png_witness :
  image_path "complementaryFilter.json" = "pitch_roll_time_seriescom.png" /\
  image_path "1.json" = "pitch_roll_time_series1.j.png" /\
  exists (res : gmap string ndarray) (w : world),
    analyze_imu_data "1.json" sample_data initial_world = (Ok res, w) /\
    saved_images w = ["pitch_roll_time_series1.j.png"].
Proof.
  split; [exact (proj1 (image_path_is_prefix_label_png "complementaryFilter.json"))|].
  split; [exact (proj1 (image_path_is_prefix_label_png "1.json"))|].
  eexists _, _.
  split; [exact (analyze_clean_run "1.json" sample_data plain_label_1_json
                   sample_data_clean sample_data_has_valid_records)|].
  exact (proj2 (image_path_is_prefix_label_png "1.json") sample_data _ _
           (analyze_clean_run "1.json" sample_data plain_label_1_json
              sample_data_clean sample_data_has_valid_records)).
Defined.

(** ** More on the filtering pass *)

Lemma extracted_app_no_data_r (a : extracted) : extracted_app a no_data = a.
Proof.
  destruct a. unfold extracted_app; simpl. rewrite !app_nil_r. reflexivity.
Qed.

Lemma extracted_app_no_data_l (a : extracted) : extracted_app no_data a = a.
Proof. destruct a. reflexivity. Qed.

Lemma extracted_app_push (a b : extracted) (f : fields) :
  extracted_app a (extracted_app (push no_data f) b)
  = extracted_app (push a f) b.
Proof.
  unfold extracted_app, push; simpl. rewrite <- !app_assoc. reflexivity.
Qed.

(** The loop started on any lists appends to them what it builds when
    started on empty lists. *)
Lemma extract_from_acc (data : list pyval) :
  forall acc,
    extract_from acc data
    = (ex <~ extract data; Ok (extracted_app acc ex)).
Proof.
  unfold extract.
  induction data as [|e data IH]; intros acc; simpl.
  - rewrite extracted_app_no_data_r. reflexivity.
  - unfold loop_body, append_entry.
    destruct (has_required_keys e) as [[|]|x]; simpl; try reflexivity.
    + destruct (entry_fields e) as [f|x]; simpl; [|reflexivity].
      rewrite (IH (push acc f)), (IH (push no_data f)).
      destruct (extract_from no_data data) as [ex|x]; simpl; [|reflexivity].
      rewrite extracted_app_push. reflexivity.
    + apply IH.
Qed.

Lemma extract_from_app (d1 d2 : list pyval) :
  forall acc,
    extract_from acc (d1 ++ d2)
    = (acc' <~ extract_from acc d1; extract_from acc' d2).
Proof.
  induction d1 as [|e d1 IH]; intros acc; simpl; [reflexivity|].
  destruct (loop_body acc e) as [acc'|x]; simpl; [apply IH|reflexivity].
Qed.

(** X1. The pass over two sequences one after the other is the pass over
    the first followed by the pass over the second, the lists of the
    second appended to those of the first; an exception in the first part
    is the exception of the whole, whatever follows. *)
Theorem extract_of_concatenation (d1 d2 : list pyval) :
  extract (d1 ++ d2)
  = (e1 <~ extract d1; e2 <~ extract d2; Ok (extracted_app e1 e2)) /\
  (forall x, extract d1 = Raise x -> extract (d1 ++ d2) = Raise x).
Proof.
  assert (E : extract (d1 ++ d2)
              = (e1 <~ extract d1; e2 <~ extract d2; Ok (extracted_app e1 e2))).
  { unfold extract at 1. rewrite extract_from_app.
    fold (extract d1). destruct (extract d1) as [e1|x]; simpl; [|reflexivity].
    apply extract_from_acc. }
  split; [exact E|].
  intros x Hx. rewrite E, Hx. reflexivity.
Qed.

Lemma extract_of_concatenation_witness :
  extract [record_without_inner_fields] = Raise (KeyError "x") /\
  extract ([record_without_inner_fields] ++ sample_data) = Raise (KeyError "x").
Proof.
  split; [reflexivity|].
  apply (proj2 (extract_of_concatenation [record_without_inner_fields]
                  sample_data)).
  reflexivity.
Defined.

Lemma extract_from_filter_included (data : list pyval) :
  forall acc ex,
    extract_from acc data = Ok ex ->
    extract_from acc (List.filter included data) = Ok ex.
Proof.
  induction data as [|e data IH]; intros acc ex H; simpl in *; [exact H|].
  unfold included at 1. unfold loop_body in H.
  destruct (has_required_keys e) as [[|]|x] eqn:Hk; simpl in H;
    try discriminate.
  - simpl. unfold loop_body. rewrite Hk. simpl.
    destruct (append_entry acc e) as [acc'|x]; simpl in *; [|discriminate].
    exact (IH _ _ H).
  - exact (IH _ _ H).
Qed.

(** X2. Dropping beforehand the records that the guard rejects changes
    nothing: when the pass over the input completes, the pass over the
    kept records alone builds the same five lists, and the whole analysis
    gives the same result and the same effects. *)
Theorem prefiltering_changes_nothing (file_path : string)
    (data : list pyval) (ex : extracted) (w : world) :
  extract data = Ok ex ->
  extract (List.filter included data) = Ok ex /\
  analyze_imu_data file_path (List.filter included data) w
  = analyze_imu_data file_path data w.
Proof.
  intros H.
  pose proof (extract_from_filter_included data no_data ex H) as Hf.
  split; [exact Hf|].
  unfold analyze_imu_data. fold (extract (List.filter included data)) in Hf.
  rewrite Hf, H. reflexivity.
Qed.

Lemma prefiltering_changes_nothing_witness :
  exists ex,
    extract sample_data = Ok ex /\
    extract (List.filter included sample_data) = Ok ex.
Proof.
  eexists. split; [reflexivity|].
  eapply (proj1 (prefiltering_changes_nothing "1.json" sample_data _
                   initial_world _)).
  Unshelve. reflexivity.
Defined.

(** X3. An entry of the input that is not a JSON object never
    contributes to the lists: [null], a boolean or a number stops the pass
    with [TypeError] at the guard; a string or an array is skipped when
    the guard (substring, resp. element test) fails, and stops the pass
    with [TypeError] at the first subscript when it holds. *)
Theorem non_object_entries_skip_or_raise (acc : extracted) (entry : pyval) :
  (forall m, entry <> PDict m) ->
  match entry with
  | PNone | PBool _ | PInt _ | PFloat _ =>
      loop_body acc entry = Raise TypeError
  | _ =>
      (included entry = false /\ loop_body acc entry = Ok acc) \/
      (included entry = true /\ loop_body acc entry = Raise TypeError)
  end.
Proof.
  intros Hn. destruct entry as [|b|z|r|s|l|m]; try reflexivity.
  - unfold included, loop_body.
    destruct (has_required_keys (PStr s)) as [[|]|x] eqn:Hk.
    + right. split; reflexivity.
    + left. split; reflexivity.
    + exfalso. unfold has_required_keys in Hk. simpl in Hk.
      destruct (str_contains "accelerometer" s); simpl in Hk; [|discriminate].
      destruct (str_contains "gyroscope" s); discriminate.
  - unfold included, loop_body.
    destruct (has_required_keys (PList l)) as [[|]|x] eqn:Hk.
    + right. split; reflexivity.
    + left. split; reflexivity.
    + exfalso. unfold has_required_keys in Hk. simpl in Hk.
      destruct (existsb _ l); simpl in Hk; [|discriminate].
      destruct (existsb _ l); discriminate.
  - exfalso. exact (Hn m eq_refl).
Qed.

Lemma non_object_entries_skip_or_raise_witness :
  loop_body no_data PNone = Raise TypeError /\
  loop_body no_data (PStr "accelerometer gyroscope orientation")
  = Raise TypeError /\
  loop_body no_data (PList [PStr "accelerometer"]) = Ok no_data.
Proof.
  split; [|split].
  - apply (non_object_entries_skip_or_raise no_data PNone). discriminate.
  - destruct (non_object_entries_skip_or_raise no_data
                (PStr "accelerometer gyroscope orientation"))
      as [[Hi _]|[_ H]]; [discriminate|discriminate Hi|exact H].
  - destruct (non_object_entries_skip_or_raise no_data
                (PList [PStr "accelerometer"]))
      as [[_ H]|[Hi _]]; [discriminate|exact H|discriminate Hi].
Defined.

(** X4. The only exceptions the filtering pass can raise are [TypeError]
    and [KeyError] on one of the keys x, y, z, timestamp, pitch, roll: the
    guard of line 23 makes a [KeyError] on [accelerometer], [gyroscope] or
    [orientation] impossible. *)
Theorem pass_raises_only_type_error_or_inner_key_error (data : list pyval)
    (x : exn) :
  extract data = Raise x ->
  x = TypeError \/ exists k, In k unguarded_keys /\ x = KeyError k.
Proof.
  intros H. apply extract_from_raises_at in H as (e & acc & _ & Hb).
  unfold loop_body, append_entry in Hb.
  destruct (has_required_keys e) as [[|]|y] eqn:Hk; simpl in Hb.
  - destruct (entry_fields e) as [f|y] eqn:Hf; simpl in Hb; [discriminate|].
    injection Hb as <-. exact (entry_fields_raises _ _ Hk Hf).
  - discriminate.
  - injection Hb as <-. left. exact (has_required_keys_raises _ _ Hk).
Qed.

Lemma pass_raises_only_type_error_or_inner_key_error_witness :
  KeyError "timestamp" = TypeError \/
  exists k, In k unguarded_keys /\ KeyError "timestamp" = KeyError k.
Proof.
  apply (pass_raises_only_type_error_or_inner_key_error
           [record_without_timestamp]).
  reflexivity.
Defined.

Lemma loop_body_extra_key (acc : extracted) (m : gmap string pyval)
    (key : string) (v : pyval) :
  ~ In key record_keys ->
  loop_body acc (PDict (<[key := v]> m)) = loop_body acc (PDict m).
Proof.
  intros Hk. unfold record_keys in Hk. simpl in Hk.
  assert (L : forall k, In k record_keys -> (<[key := v]> m) !! k = m !! k).
  { intros k Hin. apply lookup_insert_ne. intros ->. exact (Hk Hin). }
  unfold loop_body, append_entry, has_required_keys, entry_fields,
    py_getitem2, py_getitem, py_in.
  rewrite !(L "accelerometer"), !(L "gyroscope"), !(L "orientation"),
    !(L "timestamp") by (unfold record_keys; simpl; tauto).
  reflexivity.
Qed.

(** X5. A key of a record other than [accelerometer], [gyroscope],
    [orientation] and [timestamp] is never looked at: adding it, with any
    value, or changing its value, leaves the loop body as it is, and so
    the whole pass. *)
Theorem other_keys_are_ignored (acc : extracted) (m : gmap string pyval)
    (key : string) (v : pyval) (before after : list pyval) :
  ~ In key record_keys ->
  loop_body acc (PDict (<[key := v]> m)) = loop_body acc (PDict m) /\
  extract (before ++ PDict (<[key := v]> m) :: after)
  = extract (before ++ PDict m :: after).
Proof.
  intros Hk. split; [apply loop_body_extra_key; exact Hk|].
  unfold extract. rewrite !extract_from_app.
  destruct (extract_from no_data before) as [acc'|x]; simpl; [|reflexivity].
  rewrite (loop_body_extra_key acc' m key v Hk). reflexivity.
Qed.

Lemma other_keys_are_ignored_witness :
  extract [PDict (<["temperature" := PStr "n/a"]> ∅)] = extract [PDict ∅].
Proof.
  refine (proj2 (other_keys_are_ignored no_data ∅ "temperature" (PStr "n/a")
                   [] [] _)).
  unfold record_keys. simpl. intros [H|[H|[H|[H|[]]]]]; discriminate H.
Defined.

(** ** The helper of line 6 *)

Lemma small_square_is_a_float (k : Z) :
  (k * k < 2 ^ 1024 - 2 ^ 970)%Z -> IZR k ^ 2 < float_overflow.
Proof.
  intros H. unfold float_overflow.
  replace (IZR k ^ 2) with (IZR (k * k)) by (rewrite mult_IZR; ring).
  apply IZR_lt. exact H.
Qed.

Lemma py_square_float (r : R) :
  r ^ 2 < float_overflow -> py_square (PFloat r) = Ok (r ^ 2).
Proof. intros H. unfold py_square. rewrite decide_True by exact H. reflexivity. Qed.

Lemma in_float_range_squares (x y z : R) :
  in_float_range (mk_vec3 x y z) ->
  x ^ 2 < float_overflow /\ y ^ 2 < float_overflow /\ z ^ 2 < float_overflow.
Proof.
  unfold in_float_range. cbn [vx vy vz]. intros H.
  pose proof (pow2_ge_0 x). pose proof (pow2_ge_0 y). pose proof (pow2_ge_0 z).
  repeat split; lra.
Qed.

(** On a dict whose x, y, z are floats in range, the helper returns the
    Euclidean norm used above. *)
Lemma calculate_vector_length_numbers (v : pyval) (x y z : R) :
  read_number v "x" = Some x -> read_number v "y" = Some y ->
  read_number v "z" = Some z -> in_float_range (mk_vec3 x y z) ->
  calculate_vector_length v = Ok (euclidean_norm (mk_vec3 x y z)).
Proof.
  intros Hx Hy Hz Hr.
  destruct (in_float_range_squares x y z Hr) as (Hx2 & Hy2 & Hz2).
  unfold calculate_vector_length.
  rewrite (read_number_getitem _ _ _ Hx); cbn [obind].
  rewrite (py_square_float x Hx2); cbn [obind].
  rewrite (read_number_getitem _ _ _ Hy); cbn [obind].
  rewrite (py_square_float y Hy2); cbn [obind].
  rewrite (read_number_getitem _ _ _ Hz); cbn [obind].
  rewrite (py_square_float z Hz2); cbn [obind].
  rewrite decide_True by exact Hr.
  unfold euclidean_norm; cbn [vx vy vz]. do 2 f_equal. ring.
Qed.

Example calculate_vector_length_3_4_0 :
  calculate_vector_length (vec_dict 3 4 0) = Ok 5.
Proof.
  rewrite (calculate_vector_length_numbers _ 3 4 0);
    [|reflexivity|reflexivity|reflexivity|].
  - unfold euclidean_norm; simpl.
    replace (3 * 3 + 4 * 4 + 0 * 0) with (5 * 5) by ring.
    rewrite sqrt_square by lra. reflexivity.
  - unfold in_float_range. cbn [vx vy vz].
    replace (3 ^ 2 + 4 ^ 2 + 0 ^ 2) with (IZR 5 ^ 2) by (simpl; ring).
    apply small_square_is_a_float. reflexivity.
Qed.

(** X7. [calculate_vector_length] raises [TypeError] on anything that is
    not a dict, and on a dict it raises at the first of x, y, z, in this
    order, that is missing ([KeyError] with that key) or that cannot be
    squared ([TypeError]); a later key is not looked at. *)
Theorem calculate_vector_length_errors (vector : pyval) :
  ((forall m, vector <> PDict m) ->
   calculate_vector_length vector = Raise TypeError) /\
  (forall m, vector = PDict m ->
     (m !! "x" = None -> calculate_vector_length vector = Raise (KeyError "x")) /\
     (forall v, m !! "x" = Some v -> py_square v = Raise TypeError ->
        calculate_vector_length vector = Raise TypeError) /\
     (forall v x2, m !! "x" = Some v -> py_square v = Ok x2 ->
        m !! "y" = None ->
        calculate_vector_length vector = Raise (KeyError "y")) /\
     (forall v x2 v', m !! "x" = Some v -> py_square v = Ok x2 ->
        m !! "y" = Some v' -> py_square v' = Raise TypeError ->
        calculate_vector_length vector = Raise TypeError) /\
     (forall v x2 v' y2, m !! "x" = Some v -> py_square v = Ok x2 ->
        m !! "y" = Some v' -> py_square v' = Ok y2 -> m !! "z" = None ->
        calculate_vector_length vector = Raise (KeyError "z")) /\
     (forall v x2 v' y2 v'', m !! "x" = Some v -> py_square v = Ok x2 ->
        m !! "y" = Some v' -> py_square v' = Ok y2 ->
        m !! "z" = Some v'' -> py_square v'' = Raise TypeError ->
        calculate_vector_length vector = Raise TypeError)).
Proof.
  split.
  - intros Hn. destruct vector as [| | | | | |m]; try reflexivity.
    exfalso. exact (Hn m eq_refl).
  - intros m ->. unfold calculate_vector_length, py_getitem.
    repeat split; intros;
      repeat match goal with
      | H : _ !! _ = _ |- _ => rewrite H; clear H; cbn [obind]
      | H : py_square _ = _ |- _ => rewrite H; clear H; cbn [obind]
      end; reflexivity.
Qed.

Lemma calculate_vector_length_errors_witness :
  calculate_vector_length (PList [PFloat 3; PFloat 4; PFloat 0]) = Raise TypeError /\
  calculate_vector_length (PDict (<["x" := PNone]> ∅)) = Raise TypeError /\
  calculate_vector_length (PDict (<["x" := PFloat 3]> (<["z" := PFloat 0]> ∅)))
  = Raise (KeyError "y").
Proof.
  split; [|split].
  - apply (proj1 (calculate_vector_length_errors
                    (PList [PFloat 3; PFloat 4; PFloat 0]))).
    discriminate.
  - destruct (proj2 (calculate_vector_length_errors
                       (PDict (<["x" := PNone]> ∅)))
                (<["x" := PNone]> ∅) eq_refl) as (_ & H & _).
    apply (H PNone); reflexivity.
  - destruct (proj2 (calculate_vector_length_errors
                       (PDict (<["x" := PFloat 3]> (<["z" := PFloat 0]> ∅))))
                (<["x" := PFloat 3]> (<["z" := PFloat 0]> ∅)) eq_refl)
      as (_ & _ & H & _).
    apply (H (PFloat 3) (3 ^ 2)); [reflexivity| |reflexivity].
    apply py_square_float. apply (small_square_is_a_float 3). reflexivity.
Defined.

Lemma read_vec3_helper (e : pyval) (key : string) (v : vec3) :
  read_vec3 e key = Some v -> in_float_range v ->
  exists sub, py_getitem e key = Ok sub /\
              calculate_vector_length sub = Ok (euclidean_norm v).
Proof.
  unfold read_vec3. intros H Hr.
  destruct (read_sub e key) as [sub|] eqn:Hs; simpl in H; [|discriminate].
  destruct (read_number sub "x") as [x|] eqn:Hx; simpl in H; [|discriminate].
  destruct (read_number sub "y") as [y|] eqn:Hy; simpl in H; [|discriminate].
  destruct (read_number sub "z") as [z|] eqn:Hz; simpl in H; [|discriminate].
  injection H as <-. exists sub.
  split; [exact (read_sub_getitem _ _ _ Hs)|].
  exact (calculate_vector_length_numbers sub x y z Hx Hy Hz Hr).
Qed.

Lemma read_record_vectors (e : pyval) (r : SensorRecord) :
  read_record e = Some r ->
  read_vec3 e "accelerometer" = Some (accelerometer r) /\
  read_vec3 e "gyroscope" = Some (gyroscope r).
Proof.
  unfold read_record. intros H.
  destruct (read_vec3 e "accelerometer") as [a|]; simpl in H; [|discriminate].
  destruct (read_vec3 e "gyroscope") as [g|]; simpl in H; [|discriminate].
  destruct (read_number e "timestamp") as [t|]; simpl in H; [|discriminate].
  destruct (read_sub e "orientation") as [o|]; simpl in H; [|discriminate].
  destruct (read_number o "pitch") as [p|]; simpl in H; [|discriminate].
  destruct (read_number o "roll") as [q|]; simpl in H; [|discriminate].
  injection H as <-. split; reflexivity.
Qed.

Lemma kept_entries_are_valid_records (data : list pyval) :
  Forall clean data ->
  Forall2 (fun e r => read_record e = Some r)
          (List.filter included data) (valid_records data).
Proof.
  unfold valid_records.
  induction 1 as [|e data He _ IH]; simpl; [constructor|].
  unfold included at 1. destruct He as [Hs|[r Hr]].
  - rewrite Hs, (read_record_skipped _ Hs). exact IH.
  - destruct (read_record_fields _ _ Hr) as [-> _]. rewrite Hr.
    constructor; assumption.
Qed.

Lemma Forall2_with_right {A B} (R : A -> B -> Prop) (P : B -> Prop)
    (l : list A) (k : list B) :
  Forall2 R l k -> Forall P k -> Forall2 (fun a b => R a b /\ P b) l k.
Proof.
  induction 1 as [|a b l k Hab _ IH]; intros HP; [constructor|].
  apply Forall_cons_1 in HP as [Hb Hk].
  constructor; [split; assumption|exact (IH Hk)].
Qed.

(** X8. The vectorised lengths agree with the helper of line 6: on every
    input whose valid records hold floats, with at least one valid
    record, whose accelerometer and gyroscope vectors can be squared and
    summed without overflow, and for a path with a plain label, the
    accelerometer noise that [analyze_imu_data] returns is the population
    standard deviation of the values that
    [calculate_vector_length(entry['accelerometer'])] returns on the kept
    records, in order, and likewise for the gyroscope. *)
Theorem noise_agrees_with_calculate_vector_length (file_path : string)
    (data : list pyval) :
  Forall clean data -> valid_records data <> [] -> plain_label file_path ->
  Forall (fun r => in_float_range (accelerometer r) /\
                   in_float_range (gyroscope r)) (valid_records data) ->
  exists (res : gmap string ndarray) (w : world) (la lg : list R),
    analyze_imu_data file_path data initial_world = (Ok res, w) /\
    Forall2 (fun e len =>
               exists sub, py_getitem e "accelerometer" = Ok sub /\
                           calculate_vector_length sub = Ok len)
            (List.filter included data) la /\
    Forall2 (fun e len =>
               exists sub, py_getitem e "gyroscope" = Ok sub /\
                           calculate_vector_length sub = Ok len)
            (List.filter included data) lg /\
    res !! "accel_noise" = Some (Arr0 (population_std la)) /\
    res !! "gyro_noise" = Some (Arr0 (population_std lg)).
Proof.
  intros Hc Hne Hp Hr.
  exists (result_dict (expected_statistics (valid_records data))),
    (expected_world file_path (valid_records data)),
    (map euclidean_norm (map accelerometer (valid_records data))),
    (map euclidean_norm (map gyroscope (valid_records data))).
  split; [apply analyze_clean_run; assumption|].
  pose proof (Forall2_with_right _ _ _ _
                (kept_entries_are_valid_records data Hc) Hr) as HF.
  destruct (result_dict_lookup (expected_statistics (valid_records data)))
    as (Han & _ & Hgn & _).
  split; [|split; [|split; [exact Han|exact Hgn]]].
  - rewrite map_map. apply Forall2_fmap_r.
    eapply Forall2_impl; [exact HF|]. intros e r (Hrec & Ha & _). simpl.
    apply read_vec3_helper; [|exact Ha].
    exact (proj1 (read_record_vectors e r Hrec)).
  - rewrite map_map. apply Forall2_fmap_r.
    eapply Forall2_impl; [exact HF|]. intros e r (Hrec & _ & Hg). simpl.
    apply read_vec3_helper; [|exact Hg].
    exact (proj2 (read_record_vectors e r Hrec)).
Qed.

Lemma zero_vector_in_float_range : in_float_range (mk_vec3 0 0 0).
Proof.
  unfold in_float_range. cbn [vx vy vz].
  replace (0 ^ 2 + 0 ^ 2 + 0 ^ 2) with (IZR 0 ^ 2) by (simpl; ring).
  apply small_square_is_a_float. reflexivity.
Qed.

Lemma sample_data_in_float_range :
  Forall (fun r => in_float_range (accelerometer r) /\
                   in_float_range (gyroscope r)) (valid_records sample_data).
Proof.
  rewrite sample_data_valid_records.
  constructor; [split; [|exact zero_vector_in_float_range]|].
  { unfold in_float_range. cbn [vx vy vz accelerometer].
    replace (1 ^ 2 + 0 ^ 2 + 0 ^ 2) with (IZR 1 ^ 2) by (simpl; ring).
    apply small_square_is_a_float. reflexivity. }
  constructor; [split; [|exact zero_vector_in_float_range]|constructor].
  unfold in_float_range. cbn [vx vy vz accelerometer].
  replace (0 ^ 2 + 3 ^ 2 + 0 ^ 2) with (IZR 3 ^ 2) by (simpl; ring).
  apply small_square_is_a_float. reflexivity.
Qed.

Lemma noise_agrees_with_calculate_vector_length_witness :
  exists (res : gmap string ndarray) (w : world) (la lg : list R),
    analyze_imu_data "1.json" sample_data initial_world = (Ok res, w) /\
    res !! "accel_noise" = Some (Arr0 (population_std la)) /\
    res !! "gyro_noise" = Some (Arr0 (population_std lg)).
Proof.
  destruct (noise_agrees_with_calculate_vector_length "1.json" sample_data
              sample_data_clean sample_data_has_valid_records
              plain_label_1_json sample_data_in_float_range)
    as (res & w & la & lg & Hrun & _ & _ & Ha & Hg).
  exists res, w, la, lg. split; [exact Hrun|split; [exact Ha|exact Hg]].
Defined.

(** ** More on the image path *)

Lemma string_length_app (a b : string) :
  String.length (a ++ b) = (String.length a + String.length b)%nat.
Proof. induction a as [|c a IH]; simpl; [reflexivity|]. rewrite IH. reflexivity. Qed.

Lemma string_app_inv_tail (a b s : string) : a ++ s = b ++ s -> a = b.
Proof.
  revert b. induction a as [|c a IH]; intros [|c' b] H; simpl in H.
  - reflexivity.
  - exfalso. apply (f_equal String.length) in H.
    rewrite !string_length_app in H. simpl in H. lia.
  - exfalso. apply (f_equal String.length) in H.
    rewrite !string_length_app in H. simpl in H. lia.
  - injection H as -> H. f_equal. exact (IH b H).
Qed.

Lemma first_chars_length (n : nat) (s : string) :
  String.length (first_chars n s) = Nat.min n (String.length s).
Proof.
  revert s. induction n as [|n IH]; intros [|c s]; simpl; try reflexivity.
  rewrite IH. reflexivity.
Qed.

Lemma first_chars_prefix (n : nat) (s : string) :
  String.prefix (first_chars n s) s = true.
Proof.
  revert s. induction n as [|n IH]; intros [|c s]; simpl; try reflexivity.
  destruct (Ascii.ascii_dec c c) as [_|Hn]; [apply IH|contradiction].
Qed.

(** X13. The image path depends on the input path only through its first
    three characters: two input paths give the same image path exactly
    when their labels [file_path[0:3]] are equal, so that two paths that
    begin with the same three characters write to the same image. The
    label is a prefix of the path, three characters long or the whole
    path when it is shorter. *)
Theorem image_paths_collide_iff_labels_agree (p q : string) :
  (image_path p = image_path q <-> path_label p = path_label q) /\
  String.prefix (path_label p) p = true /\
  String.length (path_label p) = Nat.min 3 (String.length p) /\
  (forall a b c rest rest',
     p = String a (String b (String c rest)) ->
     q = String a (String b (String c rest')) ->
     image_path p = image_path q).
Proof.
  assert (E : image_path p = image_path q <-> path_label p = path_label q).
  { unfold image_path. split; [|intros ->; reflexivity].
    intros H. apply String.app_inj in H.
    exact (string_app_inv_tail _ _ _ H). }
  split; [exact E|].
  rewrite path_label_first_chars.
  split; [apply first_chars_prefix|].
  split; [apply first_chars_length|].
  intros a b c rest rest' -> ->. apply E.
  rewrite !path_label_first_chars. reflexivity.
Qed.

Lemma image_paths_collide_iff_labels_agree_witness :
  image_path "data/1.json" = image_path "data/2.json" /\
  image_path "1.json" <> image_path "2.json".
Proof.
  split.
  - apply (proj1 (image_paths_collide_iff_labels_agree "data/1.json"
                    "data/2.json")).
    rewrite !path_label_first_chars. reflexivity.
  - intros H.
    apply (proj1 (image_paths_collide_iff_labels_agree "1.json" "2.json")) in H.
    rewrite !path_label_first_chars in H. discriminate H.
Defined.

(** ** Runs in a world that earlier runs have filled *)

(** X14. A run does not depend on what earlier runs left behind: on an
    input whose valid records hold floats, with at least one valid
    record, and a path with a plain label, [analyze_imu_data] started in
    any world returns the dict it returns in the empty world, and its
    arrays, the texts of its calls of [print] and its [matplotlib] calls
    are those of the run in the empty world, appended to what was there;
    the arrays that existed are not changed. *)
Theorem run_is_independent_of_earlier_runs (file_path : string)
    (data : list pyval) (w : world) :
  Forall clean data -> valid_records data <> [] -> plain_label file_path ->
  exists (res : gmap string ndarray) (w0 w' : world),
    analyze_imu_data file_path data initial_world = (Ok res, w0) /\
    analyze_imu_data file_path data w = (Ok res, w') /\
    heap w' = (heap w ++ heap w0)%list /\
    stdout w' = (stdout w ++ stdout w0)%list /\
    plt_log w' = (plt_log w ++ plt_log w0)%list /\
    (forall l a, heap w !! l = Some a -> heap w' !! l = Some a).
Proof.
  intros Hc Hne Hp. destruct w as [h out fig].
  eexists _, _, _.
  split; [apply analyze_clean_run; assumption|].
  split; [apply analyze_clean_run_anywhere; assumption|].
  cbn [heap stdout plt_log expected_world].
  do 3 (split; [reflexivity|]).
  intros l a Hl. rewrite lookup_app_l by exact (lookup_lt_Some _ _ _ Hl).
  exact Hl.
Qed.

Lemma plain_label_2_json : plain_label "2.json".
Proof. reflexivity. Qed.

Lemma run_is_independent_of_earlier_runs_witness :
  exists (res : gmap string ndarray) (w0 w' : world),
    analyze_imu_data "2.json" sample_data initial_world = (Ok res, w0) /\
    analyze_imu_data "2.json" sample_data
      (mk_world [Arr1 [1; 2]] [[Lit "earlier"]] [Show]) = (Ok res, w') /\
    stdout w' = ([[Lit "earlier"]] ++ stdout w0)%list /\
    plt_log w' = ([Show] ++ plt_log w0)%list.
Proof.
  destruct (run_is_independent_of_earlier_runs "2.json" sample_data
              (mk_world [Arr1 [1; 2]] [[Lit "earlier"]] [Show])
              sample_data_clean sample_data_has_valid_records
              plain_label_2_json)
    as (res & w0 & w' & H0 & H1 & _ & Hout & Hfig & _).
  exists res, w0, w'. repeat split; assumption.
Defined.

(** ** The script *)


Lemma saved_images_app (a b : list plt_call) :
  saved_images (mk_world [] [] (a ++ b))
  = (saved_images (mk_world [] [] a) ++ saved_images (mk_world [] [] b))%list.
Proof. unfold saved_images. cbn [plt_log]. apply omap_app. Qed.

Lemma saved_images_expected (file_path : string) (recs : list SensorRecord) :
  saved_images (mk_world [] [] (expected_plt_log file_path recs))
  = [image_path file_path].
Proof. rewrite image_path_first_chars. reflexivity. Qed.

Lemma run_script_clean (files : gmap string (list pyval)) (paths : list string) :
  Forall (clean_file files) paths ->
  forall (h : list ndarray) (out : list (list frag)) (fig : list plt_call),
  exists h' outs fig',
    run_script files paths (mk_world h out fig)
    = (Finished, mk_world (h ++ h') (out ++ concat outs) (fig ++ fig')) /\
    Forall2 (fun p o => exists data res w0,
               files !! p = Some data /\
               analyze_imu_data p data initial_world = (Ok res, w0) /\
               stdout w0 = o /\ length o = 9%nat) paths outs /\
    saved_images (mk_world [] [] fig') = map image_path paths.
Proof.
  induction 1 as [|p paths Hp _ IH]; intros h out fig.
  - exists [], [], []. simpl. rewrite !app_nil_r.
    split; [reflexivity|]. split; [constructor|reflexivity].
  - destruct Hp as (Hl & data & Hf & Hc & Hne).
    destruct (IH (h ++ expected_heap (valid_records data))%list
                 (out ++ expected_stdout (valid_records data))%list
                 (fig ++ expected_plt_log p (valid_records data))%list)
      as (h' & outs & fig' & Hrun & HF & Hs).
    exists (expected_heap (valid_records data) ++ h')%list,
      (expected_stdout (valid_records data) :: outs),
      (expected_plt_log p (valid_records data) ++ fig')%list.
    split; [|split].
    + cbn [run_script]. unfold analyze_file. rewrite Hf.
      rewrite (analyze_clean_run_anywhere p data h out fig Hl Hc Hne).
      rewrite Hrun. cbn [concat]. rewrite !app_assoc. reflexivity.
    + constructor; [|exact HF].
      exists data, (result_dict (expected_statistics (valid_records data))),
        (expected_world p (valid_records data)).
      split; [exact Hf|].
      split; [apply analyze_clean_run; assumption|].
      split; reflexivity.
    + rewrite saved_images_app, saved_images_expected, Hs. reflexivity.
Qed.

(** X15. When every file of the script holds an array whose valid
    records hold floats, with at least one valid record, and every path
    has a plain label, the script runs to its end; what it has printed is
    the reports of the files one after the other, nine calls of [print]
    each, every report being the one the run of that file alone prints;
    and it has saved one image per file, in the order of the calls. *)
Theorem script_prints_the_reports_in_order (files : gmap string (list pyval))
    (paths : list string) :
  Forall (clean_file files) paths ->
  exists (w : world) (outs : list (list (list frag))),
    run_script files paths initial_world = (Finished, w) /\
    stdout w = concat outs /\
    Forall2 (fun p o => exists data res w0,
               files !! p = Some data /\
               analyze_imu_data p data initial_world = (Ok res, w0) /\
               stdout w0 = o /\ length o = 9%nat) paths outs /\
    saved_images w = map image_path paths.
Proof.
  intros H.
  destruct (run_script_clean files paths H [] [] [])
    as (h' & outs & fig' & Hrun & HF & Hs).
  eexists _, outs. split; [exact Hrun|].
  split; [reflexivity|]. split; [exact HF|exact Hs].
Qed.

Lemma sample_files_clean : Forall (clean_file sample_files) main_paths.
Proof.
  unfold main_paths.
  repeat (constructor;
          [split; [reflexivity|];
           exists sample_data;
           split; [reflexivity|];
           split; [exact sample_data_clean|exact sample_data_has_valid_records]
          |]).
  constructor.
Qed.

Lemma script_prints_the_reports_in_order_witness :
  exists (w : world),
    run_script sample_files main_paths initial_world = (Finished, w) /\
    saved_images w = map image_path main_paths.
Proof.
  destruct (script_prints_the_reports_in_order sample_files main_paths
              sample_files_clean) as (w & outs & Hrun & _ & _ & Hs).
  exists w. split; [exact Hrun|exact Hs].
Defined.



Lemma concat_length_nine {A} (outs : list (list A)) :
  Forall (fun o => length o = 9%nat) outs ->
  length (concat outs) = (9 * length outs)%nat.
Proof.
  induction 1 as [|o outs Ho _ IH]; [reflexivity|].
  cbn [concat]. rewrite length_app, Ho, IH, length_cons. lia.
Qed.

(** X17. The entry point: when the five files [1.json], [2.json],
    [accelerometerOnly.json], [gyroscopeOnly.json] and
    [complementaryFilter.json] hold arrays whose valid records hold
    floats, with at least one valid record each, the script runs to its
    end, makes 45 calls of [print] and saves five images under five
    different paths, so that no run overwrites the image of another; when
    [1.json] does not exist it ends at once with [FileNotFoundError],
    nothing printed and nothing saved. *)
Theorem main_saves_five_different_images (files : gmap string (list pyval)) :
  (Forall (clean_file files) main_paths ->
   exists w,
     main files = (Finished, w) /\
     saved_images w
     = ["pitch_roll_time_series1.j.png"; "pitch_roll_time_series2.j.png";
        "pitch_roll_time_seriesacc.png"; "pitch_roll_time_seriesgyr.png";
        "pitch_roll_time_seriescom.png"] /\
     NoDup (saved_images w) /\
     length (stdout w) = 45%nat) /\
  (files !! "1.json" = None ->
   main files = (FileNotFoundError "1.json", initial_world)).
Proof.
  split.
  - intros H. unfold main, initial_world.
    destruct (run_script_clean files main_paths H [] [] [])
      as (h' & outs & fig' & Hrun & HF & Hs).
    eexists. split; [exact Hrun|].
    assert (Hs' : saved_images (mk_world ([] ++ h') ([] ++ concat outs)
                                         ([] ++ fig'))
                  = ["pitch_roll_time_series1.j.png";
                     "pitch_roll_time_series2.j.png";
                     "pitch_roll_time_seriesacc.png";
                     "pitch_roll_time_seriesgyr.png";
                     "pitch_roll_time_seriescom.png"]).
    { transitivity (map image_path main_paths); [exact Hs|].
      unfold main_paths. cbn [map]. rewrite !image_path_first_chars.
      reflexivity. }
    split; [exact Hs'|]. split.
    + rewrite Hs'.
      repeat (constructor;
              [rewrite !list_elem_of_In; simpl; intuition discriminate|]).
      constructor.
    + cbn [stdout app].
      rewrite concat_length_nine.
      * apply Forall2_length in HF. rewrite <- HF. reflexivity.
      * clear -HF. induction HF as [|p o ps os (d & r & w0 & _ & _ & _ & Hl) _ IH];
          constructor; assumption.
  - intros Hf. unfold main, main_paths. cbn [run_script].
    unfold analyze_file. rewrite Hf. reflexivity.
Qed.

Lemma main_saves_five_different_images_witness :
  exists w,
    main sample_files = (Finished, w) /\
    NoDup (saved_images w) /\ length (stdout w) = 45%nat.
Proof.
  destruct (proj1 (main_saves_five_different_images sample_files)
              sample_files_clean) as (w & Hrun & _ & Hnd & Hlen).
  exists w. split; [exact Hrun|split; [exact Hnd|exact Hlen]].
Defined.

(** ** Integer accelerometer values *)

(** The rows of an integer array are as long as the rows of the list it
    was built from. *)
Lemma np_array2_int_rows (l : list (list pyval)) (zrows : list (list Z)) :
  np_array2 l = Ok (IArr2 zrows) ->
  Forall2 (fun r zr => length r = length zr) l zrows.
Proof.
  unfold np_array2. destruct l as [|first l]; [discriminate|].
  destruct (mapM (mapM as_number) (first :: l)) as [rows|] eqn:Hm;
    [|discriminate].
  destruct (_ && _); [|discriminate].
  destruct (concat rows) as [|k ks]; [discriminate|].
  destruct (mapM (mapM as_int) rows) as [zs|] eqn:Hz; [|discriminate].
  intros [= <-].
  apply mapM_Some in Hm. apply mapM_Some in Hz.
  revert zs Hz. induction Hm as [|r ns l' rows' Hr _ IH]; intros zs Hz.
  - inversion Hz. constructor.
  - inversion Hz as [|ns' zr rows'' zs' Hzr Hrest]; subst.
    constructor; [|exact (IH _ Hrest)].
    apply length_mapM in Hr. apply length_mapM in Hzr. congruence.
Qed.

Lemma entry_fields_lengths (e : pyval) (f : fields) :
  entry_fields e = Ok f ->
  length (f_accel f) = 3%nat /\ length (f_gyro f) = 3%nat.
Proof.
  intros H. destruct (entry_fields_dict e f H) as [m ->].
  apply entry_fields_contributes in H.
  destruct H as (a & g & o & ax & ay & az & gx & gy & gz & t & p & r & H).
  destruct H as (_ & _ & _ & _ & _ & _ & _ & _ & _ & _ & _ & _ & ->).
  split; reflexivity.
Qed.

Lemma extract_accel_rows (data : list pyval) (ex : extracted) :
  extract data = Ok ex ->
  Forall (fun r => length r = 3%nat) (accel_data ex).
Proof.
  intros H. destruct (extract_from_ok data [] ex H) as (fs & HF & ->).
  cbn [of_fields accel_data app]. clear H.
  induction HF as [|e f l fs He _ IH]; [constructor|].
  cbn [map]. constructor; [exact (proj1 (entry_fields_lengths e f He))|exact IH].
Qed.

Lemma np_array2_integers (zs : list (list Z)) :
  zs <> [] ->
  Forall (fun r => length r = 3%nat /\ Forall (fun z => int64 z = true) r) zs ->
  np_array2 (map (map PInt) zs) = Ok (IArr2 zs).
Proof.
  intros Hne Hz.
  assert (Hn : mapM (mapM as_number) (map (map PInt) zs)
               = Some (map (map NInt) zs)).
  { apply mapM_Some. apply Forall2_fmap. apply Forall_Forall2_diag.
    apply List.Forall_forall. intros r _. apply mapM_Some.
    apply Forall2_fmap. apply Forall_Forall2_diag.
    apply List.Forall_forall. intros z _. reflexivity. }
  assert (Hi : mapM (mapM as_int) (map (map NInt) zs) = Some zs).
  { apply mapM_Some. apply Forall2_fmap_l. apply Forall_Forall2_diag.
    apply List.Forall_forall. intros r _. apply mapM_Some.
    apply Forall2_fmap_l. apply Forall_Forall2_diag.
    apply List.Forall_forall. intros z _. reflexivity. }
  unfold np_array2. destruct zs as [|r0 zs']; [contradiction|].
  change (map (map PInt) (r0 :: zs'))
    with (map PInt r0 :: map (map PInt) zs') at 1.
  cbv iota. rewrite Hn, Hi.
  replace (forallb _ (map (map NInt) (r0 :: zs')) && forallb _ _) with true.
  - apply Forall_cons_1 in Hz as [[Hl0 _] _].
    destruct r0 as [|z0 r0']; [discriminate Hl0|]. reflexivity.
  - symmetry. apply andb_true_iff. split.
    + apply forallb_forall. intros ns Hin. apply in_map_iff in Hin
        as (r & <- & Hin).
      rewrite List.Forall_forall in Hz.
      rewrite !length_map. rewrite (proj1 (Hz r Hin)).
      rewrite (proj1 (Hz r0 (or_introl eq_refl))). reflexivity.
    + apply forallb_forall. intros ns Hin. apply in_map_iff in Hin
        as (r & <- & Hin).
      rewrite List.Forall_forall in Hz. destruct (Hz r Hin) as [_ Hr].
      apply forallb_forall. intros n Hn'. apply in_map_iff in Hn'
        as (z & <- & Hzin).
      rewrite List.Forall_forall in Hr. exact (Hr z Hzin).
Qed.

(** X19. Integer accelerometer values stop the run. A list of rows of
    three 64-bit integers each, not empty, becomes an integer array; and
    whenever the accelerometer list of a completed pass becomes an
    integer array (the gyroscope and timestamp lists becoming arrays
    too), the addition of [1.0] of line 47 raises [UFuncTypeError]: the
    three arrays and the copy exist, nothing is printed, nothing is
    plotted, and no result is returned. *)
Theorem integer_accelerometer_stops_the_run (file_path : string)
    (data : list pyval) (ex : extracted) (zrows : list (list Z))
    (g t : ndarray) :
  extract data = Ok ex ->
  np_array2 (accel_data ex) = Ok (IArr2 zrows) ->
  np_array2 (gyro_data ex) = Ok g ->
  np_array1 (timestamps ex) = Ok t ->
  analyze_imu_data file_path data initial_world
  = (Raise UFuncTypeError, mk_world [IArr2 zrows; g; t; IArr2 zrows] [] []) /\
  (forall zs : list (list Z),
     zs <> [] ->
     Forall (fun r => length r = 3%nat /\ Forall (fun z => int64 z = true) r)
            zs ->
     np_array2 (map (map PInt) zs) = Ok (IArr2 zs)).
Proof.
  intros Hex Ha Hg Ht. split; [|exact np_array2_integers].
  assert (Hrows : Forall (fun r => length r = 3%nat) zrows).
  { pose proof (extract_accel_rows data ex Hex) as Hl.
    pose proof (np_array2_int_rows _ _ Ha) as HF.
    clear -Hl HF. induction HF as [|r zr l zs Hr _ IH]; [constructor|].
    apply Forall_cons_1 in Hl as [H3 Hl].
    constructor; [congruence|exact (IH Hl)]. }
  unfold analyze_imu_data, initial_world.
  eapply bind_run; [unfold lift; rewrite Hex; reflexivity|].
  eapply bind_run.
  { unfold new_array2. eapply bind_run; [unfold lift; rewrite Ha; reflexivity|].
    apply np_alloc_run. }
  eapply bind_run.
  { unfold new_array2. eapply bind_run; [unfold lift; rewrite Hg; reflexivity|].
    apply np_alloc_run. }
  eapply bind_run.
  { unfold new_array1. eapply bind_run; [unfold lift; rewrite Ht; reflexivity|].
    apply np_alloc_run. }
  cbn [app length].
  eapply bind_raise. unfold compute_statistics.
  eapply bind_raise.
  apply (gravity_adjust_int_run [IArr2 zrows; g; t] [] [] 0%nat zrows eq_refl
           Hrows).
Qed.

Lemma integer_accelerometer_stops_the_run_witness :
  analyze_imu_data "1.json"
    [integer_accel_record 10 3 4 0 0 0 0 0 0; record_without_orientation;
     integer_accel_record 12 0 0 (-1) 0 0 0 0 0] initial_world
  = (Raise UFuncTypeError,
     mk_world [IArr2 [[3; 4; 0]; [0; 0; -1]]%Z; Arr2 [[0; 0; 0]; [0; 0; 0]];
               Arr1 [10; 12]; IArr2 [[3; 4; 0]; [0; 0; -1]]%Z] [] []).
Proof.
  refine (proj1 (integer_accelerometer_stops_the_run "1.json" _ _ _ _ _
                   _ _ _ _));
    reflexivity.
Defined.

